(** * AssetEventMetadataEntriesTable: merge, filter and progressive disclosure

    A shallow embedding of the logic of
    [js_modules/dagster-ui/packages/ui-core/src/assets/AssetEventMetadataEntriesTable.tsx]:
    the [allRows] and [filteredRows] memos, the early return on [emptyState],
    the table body with its placeholder row, the [slice] by [displayedCount]
    and the "Show more" / "Show less" footer.

    Conventions of the embedding.
    - A JavaScript string is a [string]: each [ascii] stands for the UTF-16
      code unit of the same number, so the strings of the model are those
      over U+0000..U+00FF; [toLowerCase] is exact on that range.
    - A JavaScript [number] that the component only compares, subtracts or
      hands to [slice] is an integer [Z] (no fractions, no NaN); comparing
      is exact, and subtracting rounds the difference to the nearest double
      ([JS.subtract]).
    - An optional or nullable prop is an [option]; where the code only tests
      truthiness, [null] and [undefined] share [None]. The row field [runId]
      keeps [null] and [undefined] apart, because the code writes a literal
      [null] there. *)

From Stdlib Require Import ZArith Lia Ascii String List.
From stdpp Require Import base option list gmap strings pretty.

Local Open Scope string_scope.
Local Open Scope Z_scope.
Local Open Scope list_scope.

(** ** JavaScript and lodash primitives used by the component *)

Module JS.

(** Truthiness of a string: only the empty string is falsy. *)
Definition truthy_string (s : string) : bool :=
  match s with
  | EmptyString => false
  | String _ _ => true
  end.

(** Truthiness of an optional boolean ([undefined] is falsy). *)
Definition truthy_flag (b : option bool) : bool :=
  match b with
  | Some true => true
  | _ => false
  end.

(** Lower-case mapping of one code unit below 256: the upper-case letters
    of that range are A..Z, U+00C0..U+00D6 and U+00D8..U+00DE, each 32
    below its lower-case letter. *)
Definition lowerUnit (c : ascii) : ascii :=
  let n := N_of_ascii c in
  if ((65 <=? n) && (n <=? 90) || (192 <=? n) && (n <=? 214)
      || (216 <=? n) && (n <=? 222))%N
  then ascii_of_N (n + 32)
  else c.

(** [String.prototype.toLowerCase]. *)
Fixpoint toLowerCase (s : string) : string :=
  match s with
  | EmptyString => EmptyString
  | String c s' => String (lowerUnit c) (toLowerCase s')
  end.

(** [s.startsWith(t)]: [t] is read off the front of [s]. *)
Fixpoint startsWith (s t : string) {struct t} : bool :=
  match t, s with
  | EmptyString, _ => true
  | String _ _, EmptyString => false
  | String b t', String a s' => if Ascii.eqb a b then startsWith s' t' else false
  end.

(** [String.prototype.includes]: [t] occurs in [s] at some index. *)
Fixpoint includes (s t : string) : bool :=
  startsWith s t
  || match s with
     | EmptyString => false
     | String _ s' => includes s' t
     end.

(** The white space that [String.prototype.trim] strips, below 256. *)
Definition isWhiteSpace (c : ascii) : bool :=
  let n := N_of_ascii c in
  ((9 <=? n) && (n <=? 13) || (n =? 32) || (n =? 160))%N.

Fixpoint whitespaceOnly (s : string) : bool :=
  match s with
  | EmptyString => true
  | String c s' => isWhiteSpace c && whitespaceOnly s'
  end.

(** [Number.MAX_SAFE_INTEGER], 2^53 - 1. *)
Definition MAX_SAFE_INTEGER : Z := 9007199254740991.

(** The largest length of an array, 2^32 - 1. *)
Definition MAX_ARRAY_LENGTH : Z := 4294967295.

(** The double nearest to an integer, ties to the even significand: an
    integer of magnitude up to 2^53 is a double; beyond, only 53
    significant bits are kept. (No integer met here reaches the overflow
    threshold 2^1024.) *)
Definition roundToDouble (z : Z) : Z :=
  let a := Z.abs z in
  if a <=? 9007199254740992 then z
  else
    let e := Z.log2 a - 52 in
    let q := Z.shiftr a e in
    let r := a - Z.shiftl q e in
    let half := Z.shiftl 1 (e - 1) in
    let q' := if r <? half then q
              else if half <? r then q + 1
              else if Z.even q then q else q + 1 in
    Z.sgn z * Z.shiftl q' e.

(** [a - b] on numbers. *)
Definition subtract (a b : Z) : Z := roundToDouble (a - b).

(** [array.slice(0, end)] for an integer [end]: a negative [end] counts
    from the back, and the result is clamped to the array. *)
Definition slice0 {A : Type} (array : list A) (end_ : Z) : list A :=
  let len := Z.of_nat (length array) in
  let final := if end_ <? 0 then Z.max (len + end_) 0 else Z.min end_ len in
  firstn (Z.to_nat (Z.max final 0)) array.

(** lodash [uniqBy(array, iteratee)], after [baseUniq]: one pass from the
    left with the keys [seen] so far; a value whose key was seen is
    skipped, any other is pushed on [result] and its key on [seen].
    (Arrays of 200 and more elements keep [seen] in a hash set instead of
    an array, with the same membership test.) *)
Fixpoint baseUniq {A K : Type} `{EqDecision K}
    (iteratee : A → K) (seen : list K) (result array : list A) : list A :=
  match array with
  | [] => result
  | value :: rest =>
      let computed := iteratee value in
      if bool_decide (computed ∈ seen)
      then baseUniq iteratee seen result rest
      else baseUniq iteratee (seen ++ [computed]) (result ++ [value]) rest
  end.

Definition uniqBy {A K : Type} `{EqDecision K}
    (array : list A) (iteratee : A → K) : list A :=
  baseUniq iteratee [] [] array.

End JS.

(** ** Data model *)

(** [MetadataEntryFragment]: the component reads [label] and [description];
    the tag and the payload are what the imported predicates inspect. *)
Record MetadataEntry := {
  typename : string;
  label : string;
  description : option string;
  payload : string;
}.

(** [string | number] of the [timestamp] fields. *)
Inductive Timestamp :=
  | TimestampString (s : string)
  | TimestampNumber (n : Z).

Record RepositoryOrigin := {
  origin_id : string;
  repositoryName : string;
  repositoryLocationName : string;
}.

Inductive RunOrError :=
  | PythonError
  | Run (id mode status pipelineName : string)
        (pipelineSnapshotId : option string)
        (repositoryOrigin : option RepositoryOrigin)
  | RunNotFoundError.

Module TableEvent.
Record t := {
  metadataEntries : list MetadataEntry;
  timestamp : option Timestamp;
  runId : option string;
  runOrError : option RunOrError;
}.
End TableEvent.

Inductive IconName := materialization | observation | asset.

#[global] Instance IconName_eq_dec : EqDecision IconName.
Proof. solve_decision. Defined.

(** The [runId] of a row: the literal [null], or the optional [runId] of an
    observation. *)
Inductive RunId :=
  | RunIdNull
  | RunIdUndefined
  | RunIdString (s : string).

Definition optionalRunId (r : option string) : RunId :=
  match r with
  | None => RunIdUndefined
  | Some s => RunIdString s
  end.

Record Row := {
  icon : IconName;
  timestamp : option Timestamp;
  runId : RunId;
  entry : MetadataEntry;
}.

(** The key of the de-duplication: [(e) => e.entry.label]. *)
Definition rowLabel (e : Row) : string := label (entry e).

(** What the component imports from [../metadata/MetadataEntry] and
    [../metadata/TableSchema]; those modules are not part of the file, so
    the development is parametric in them. *)
Class MetadataImports := {
  HIDDEN_METADATA_ENTRY_LABELS : gset string;
  isCanonicalColumnSchemaEntry : MetadataEntry → bool;
  isCanonicalColumnLineageEntry : MetadataEntry → bool;
}.

(** ** The [allRows] memo *)

Definition eventRows (event : option TableEvent.t) : list Row :=
  match event with
  | Some ev =>
      map (fun entry =>
             {| icon := materialization;
                timestamp := TableEvent.timestamp ev;
                runId := RunIdNull;
                entry := entry |})
          (TableEvent.metadataEntries ev)
  | None => []
  end.

Definition observationRows (observations : option (list TableEvent.t)) : list Row :=
  flat_map (fun o =>
              map (fun entry =>
                     {| icon := observation;
                        timestamp := TableEvent.timestamp o;
                        runId := optionalRunId (TableEvent.runId o);
                        entry := entry |})
                  (TableEvent.metadataEntries o))
           (default [] observations).

Definition definitionRows (definitionMetadata : option (list MetadataEntry))
    (definitionLoadTimestamp : option Z) : list Row :=
  map (fun entry =>
         {| icon := asset;
            timestamp := TimestampNumber <$> definitionLoadTimestamp;
            runId := RunIdNull;
            entry := entry |})
      (default [] definitionMetadata).

Definition allRows (event : option TableEvent.t)
    (observations : option (list TableEvent.t))
    (definitionMetadata : option (list MetadataEntry))
    (definitionLoadTimestamp : option Z) : list Row :=
  JS.uniqBy
    (observationRows observations ++ eventRows event
       ++ definitionRows definitionMetadata definitionLoadTimestamp)
    rowLabel.

(** ** The [filteredRows] memo *)

(** First [.filter]: the text typed in the filter box. *)
Definition matchesFilter (filter : string) (row : Row) : bool :=
  negb (JS.truthy_string filter)
  || JS.includes (JS.toLowerCase (rowLabel row)) (JS.toLowerCase filter).

(** Second [.filter]: the fixed exclusions. *)
Definition isShown `{MetadataImports} (hideTableSchema : option bool) (row : Row) : bool :=
  negb (bool_decide (rowLabel row ∈ HIDDEN_METADATA_ENTRY_LABELS))
  && negb (isCanonicalColumnSchemaEntry (entry row) && JS.truthy_flag hideTableSchema)
  && negb (isCanonicalColumnLineageEntry (entry row)).

Definition filteredRows `{MetadataImports} (allRows : list Row) (filter : string)
    (hideTableSchema : option bool) : list Row :=
  List.filter (isShown hideTableSchema) (List.filter (matchesFilter filter) allRows).

(** ** Props, state and what a render returns *)

(** [React.ReactNode], as far as its truthiness and identity matter. *)
Inductive ReactNode :=
  | NodeUndefined
  | NodeNull
  | NodeBoolean (b : bool)
  | NodeNumber (n : Z)
  | NodeString (s : string)
  | NodeElement (name : string).

Definition truthy_node (n : ReactNode) : bool :=
  match n with
  | NodeUndefined | NodeNull => false
  | NodeBoolean b => b
  | NodeNumber n => negb (n =? 0)
  | NodeString s => JS.truthy_string s
  | NodeElement _ => true
  end.

Inductive View := ViewTable | ViewPlots.
Inductive PlotView := PlotPartition | PlotTime.

Module Props.
Record t := {
  assetKey : option (list string);
  event : option TableEvent.t;
  observations : option (list TableEvent.t);
  definitionMetadata : option (list MetadataEntry);
  definitionLoadTimestamp : option Z;
  assetHasDefinedPartitions : option bool;
  showDescriptions : option bool;
  showTimestamps : option bool;
  showHeader : option bool;
  showFilter : option bool;
  hideTableSchema : option bool;
  displayedByDefault : option Z;
  emptyState : ReactNode;
}.
End Props.

(** The destructuring default [displayedByDefault = 100]. *)
Definition displayedByDefault (props : Props.t) : Z :=
  default 100 (Props.displayedByDefault props).

Module State.
Record t := {
  filter : string;
  displayedCount : Z;
  view : View;
  plotView : PlotView;
}.
End State.

(** The four [useState] initial values. *)
Definition initialState (props : Props.t) : State.t :=
  {| State.filter := "";
     State.displayedCount := displayedByDefault props;
     State.view := ViewTable;
     State.plotView :=
       if JS.truthy_flag (Props.assetHasDefinedPartitions props)
       then PlotPartition else PlotTime |}.

Inductive FilterControl :=
  | FilterTextInput (value : string)
  | PlotViewButtons (active : PlotView).

Record FilterBar := {
  control : FilterControl;
  activeView : View;
}.

(** The cells of one [<tr>] of an entry. *)
Record EntryCells := {
  keyCell : string;
  timestampCell : option (IconName * option Timestamp);
  valueCell : MetadataEntry * option string;
  descriptionCell : option (option string * option string);
}.

Inductive BodyRow :=
  | PlaceholderRow (caption : string)
  | EntryRow (cells : EntryCells).

Inductive Footer :=
  | ShowMoreButton (count : Z)
  | ShowLessButton
  | NoFooter.

Record TableView := {
  thead : option (list string);
  tbody : list BodyRow;
  footer : Footer;
}.

Record PlotsView := {
  plots_assetKey : option (list string);
  params : PlotView;
  plots_assetHasDefinedPartitions : bool;
}.

Inductive Rendered :=
  | ReturnNode (node : ReactNode)
  | ReturnFragment (filterBar : option FilterBar) (tableView : option TableView)
                   (plotsView : option PlotsView).

(** [event?.runOrError?.__typename === 'Run' ? ... : undefined]. *)
Definition repoLocation (event : option TableEvent.t) : option string :=
  match event with
  | Some ev =>
      match TableEvent.runOrError ev with
      | Some (Run _ _ _ _ _ (Some origin)) => Some (repositoryLocationName origin)
      | _ => None
      end
  | None => None
  end.

(** [runId && <ObservedInRun runId=... />]. *)
Definition observedInRun (r : RunId) : option string :=
  match r with
  | RunIdString s => if JS.truthy_string s then Some s else None
  | _ => None
  end.

Definition entryCells (props : Props.t) (row : Row) : EntryCells :=
  {| keyCell := rowLabel row;
     timestampCell :=
       if JS.truthy_flag (Props.showTimestamps props)
       then Some (icon row, timestamp row) else None;
     valueCell := (entry row, repoLocation (Props.event props));
     descriptionCell :=
       if JS.truthy_flag (Props.showDescriptions props)
       then Some (observedInRun (runId row), description (entry row)) else None |}.

(** The rows handed to [.map] in the body: [filteredRows.slice(0, displayedCount)]. *)
Definition displayedRows (filteredRows : list Row) (displayedCount : Z) : list Row :=
  JS.slice0 filteredRows displayedCount.

(** The children of [<tbody>]. *)
Definition tableBody (props : Props.t) (filteredRows : list Row) (displayedCount : Z)
    : list BodyRow :=
  (if (length filteredRows =? 0)%nat then [PlaceholderRow "No metadata entries"] else [])
  ++ map (fun row => EntryRow (entryCells props row)) (displayedRows filteredRows displayedCount).

(** The conditional under the table. *)
Definition tableFooter (filteredRows : list Row) (displayedCount displayedByDefault : Z)
    : Footer :=
  let len := Z.of_nat (length filteredRows) in
  if displayedCount <? len then ShowMoreButton (JS.subtract len displayedCount)
  else if displayedCount >? displayedByDefault then ShowLessButton
  else NoFooter.

Definition tableHeader (props : Props.t) : list string :=
  ["Key"] ++ (if JS.truthy_flag (Props.showTimestamps props) then ["Timestamp"] else [])
  ++ ["Value"]
  ++ (if JS.truthy_flag (Props.showDescriptions props) then ["Description"] else []).

Definition allRowsOf (props : Props.t) : list Row :=
  allRows (Props.event props) (Props.observations props)
          (Props.definitionMetadata props) (Props.definitionLoadTimestamp props).

Definition filteredRowsOf `{MetadataImports} (props : Props.t) (state : State.t) : list Row :=
  filteredRows (allRowsOf props) (State.filter state) (Props.hideTableSchema props).

(** The [<thead>], [<tbody>] and footer shown in the table view. *)
Definition renderTable `{MetadataImports} (props : Props.t) (state : State.t) : TableView :=
  let filteredRows := filteredRowsOf props state in
  {| thead :=
       if JS.truthy_flag (Props.showHeader props)
       then Some (tableHeader props) else None;
     tbody := tableBody props filteredRows (State.displayedCount state);
     footer := tableFooter filteredRows (State.displayedCount state)
                           (displayedByDefault props) |}.

(** The filter box, or the plot buttons, next to the view switch. *)
Definition renderFilterBar (state : State.t) : FilterBar :=
  {| control :=
       match State.view state with
       | ViewTable => FilterTextInput (State.filter state)
       | ViewPlots => PlotViewButtons (State.plotView state)
       end;
     activeView := State.view state |}.

Definition renderPlots (props : Props.t) (state : State.t) : PlotsView :=
  {| plots_assetKey := Props.assetKey props;
     params := State.plotView state;
     plots_assetHasDefinedPartitions :=
       JS.truthy_flag (Props.assetHasDefinedPartitions props) |}.

(** The body of the component. *)
Definition render `{MetadataImports} (props : Props.t) (state : State.t) : Rendered :=
  let allRows := allRowsOf props in
  if truthy_node (Props.emptyState props) && (length allRows =? 0)%nat
  then ReturnNode (Props.emptyState props)
  else
    ReturnFragment
      (if JS.truthy_flag (Props.showFilter props)
       then Some (renderFilterBar state) else None)
      (match State.view state with
       | ViewTable => Some (renderTable props state)
       | ViewPlots => None
       end)
      (match State.view state with
       | ViewPlots => Some (renderPlots props state)
       | ViewTable => None
       end).

(** The table of a render, when it shows one, and its filter bar. *)
Definition renderedTable (r : Rendered) : option TableView :=
  match r with
  | ReturnFragment _ tv _ => tv
  | ReturnNode _ => None
  end.

Definition renderedFilterBar (r : Rendered) : option FilterBar :=
  match r with
  | ReturnFragment bar _ _ => bar
  | ReturnNode _ => None
  end.

(** ** User actions *)

Inductive Action :=
  | ChangeFilter (value : string)
  | ClickView (id : View)
  | ClickPlotView (id : PlotView)
  | ClickShowMore
  | ClickShowLess.

(** The [onChange] and [onClick] handlers. *)
Definition handle (props : Props.t) (state : State.t) (a : Action) : State.t :=
  match a with
  | ChangeFilter value =>
      {| State.filter := value; State.displayedCount := State.displayedCount state;
         State.view := State.view state; State.plotView := State.plotView state |}
  | ClickView id =>
      {| State.filter := State.filter state; State.displayedCount := State.displayedCount state;
         State.view := id; State.plotView := State.plotView state |}
  | ClickPlotView id =>
      {| State.filter := State.filter state; State.displayedCount := State.displayedCount state;
         State.view := State.view state; State.plotView := id |}
  | ClickShowMore =>
      {| State.filter := State.filter state; State.displayedCount := JS.MAX_SAFE_INTEGER;
         State.view := State.view state; State.plotView := State.plotView state |}
  | ClickShowLess =>
      {| State.filter := State.filter state; State.displayedCount := displayedByDefault props;
         State.view := State.view state; State.plotView := State.plotView state |}
  end.

(** An action can be taken when the render shows its control. *)
Definition offered (r : Rendered) (a : Action) : bool :=
  match a with
  | ChangeFilter _ =>
      match control <$> renderedFilterBar r with
      | Some (FilterTextInput _) => true
      | _ => false
      end
  | ClickPlotView _ =>
      match control <$> renderedFilterBar r with
      | Some (PlotViewButtons _) => true
      | _ => false
      end
  | ClickView _ =>
      match renderedFilterBar r with
      | Some _ => true
      | None => false
      end
  | ClickShowMore =>
      match footer <$> renderedTable r with
      | Some (ShowMoreButton _) => true
      | _ => false
      end
  | ClickShowLess =>
      match footer <$> renderedTable r with
      | Some ShowLessButton => true
      | _ => false
      end
  end.

Inductive step `{MetadataImports} (props : Props.t) : State.t → Action → State.t → Prop :=
  | step_handle state a :
      offered (render props state) a = true →
      step props state a (handle props state a).

(** A life of the component: it is mounted with some props, then the user
    acts on what is rendered and the parent renders it again with new
    props, the state being kept from one render to the next.
    [reachable allowed props state]: the component now has [props] and
    [state], after a life in which all its props were [allowed] ones. *)
Inductive reachable `{MetadataImports} (allowed : Props.t → Prop)
    : Props.t → State.t → Prop :=
  | reachable_mount props :
      allowed props → reachable allowed props (initialState props)
  | reachable_step props state a state' :
      reachable allowed props state → step props state a state' →
      reachable allowed props state'
  | reachable_rerender props props' state :
      reachable allowed props state → allowed props' →
      reachable allowed props' state.

(** ** Row keys *)

(** [`${timestamp}`] inside a template literal: a string is itself,
    [undefined] prints as such, and the digits of a number are left to
    [showNumber]. *)
Definition templateTimestamp (showNumber : Z → string) (t : option Timestamp) : string :=
  match t with
  | None => "undefined"
  | Some (TimestampString s) => s
  | Some (TimestampNumber n) => showNumber n
  end.

(** [key={`metadata-${timestamp}-${entry.label}`}] of a [<tr>]. *)
Definition rowKey (showNumber : Z → string) (row : Row) : string :=
  "metadata-" +:+ templateTimestamp showNumber (timestamp row) +:+ "-" +:+ rowLabel row.

(** No hyphen occurs in [s]. *)
Fixpoint dashFree (s : string) : bool :=
  match s with
  | EmptyString => true
  | String c s' => negb (Ascii.eqb c "-") && dashFree s'
  end.

(** ** The specification's notions, stated independently of the code *)

(** The three tiers in priority order: observations, event, definition. *)
Definition concatenatedRows (event : option TableEvent.t)
    (observations : option (list TableEvent.t))
    (definitionMetadata : option (list MetadataEntry))
    (definitionLoadTimestamp : option Z) : list Row :=
  observationRows observations ++ eventRows event
    ++ definitionRows definitionMetadata definitionLoadTimestamp.

(** Row [i] of [rows] is kept when no earlier row bears its label. *)
Definition firstOfItsLabel (rows : list Row) (i : nat) (r : Row) : bool :=
  forallb (fun r' => negb (String.eqb (rowLabel r') (rowLabel r))) (take i rows).

(** De-duplication by label that keeps the first occurrence. *)
Definition dedupByLabelKeepFirst (rows : list Row) : list Row :=
  map snd (List.filter (fun ir => firstOfItsLabel rows (fst ir) (snd ir))
                       (zip (seq 0 (length rows)) rows)).

(** The first row of [rows] that bears the label [l], if any. *)
Definition firstWithLabel (l : string) (rows : list Row) : option Row :=
  List.find (fun r => String.eqb (rowLabel r) l) rows.

(** The rows of one provenance tier, in the order they have in [rows]. *)
Definition tierRows (tier : IconName) (rows : list Row) : list Row :=
  List.filter (fun r => bool_decide (icon r = tier)) rows.

(** The total input row count; an absent input counts for nothing. *)
Definition totalInputRows (event : option TableEvent.t)
    (observations : option (list TableEvent.t))
    (definitionMetadata : option (list MetadataEntry)) : nat :=
  (length (from_option TableEvent.metadataEntries [] event)
   + sum_list (map (fun o => length (TableEvent.metadataEntries o)) (default [] observations))
   + length (default [] definitionMetadata))%nat.

(** All the entries handed to the component, in priority order. *)
Definition inputEntries (event : option TableEvent.t)
    (observations : option (list TableEvent.t))
    (definitionMetadata : option (list MetadataEntry)) : list MetadataEntry :=
  flat_map TableEvent.metadataEntries (default [] observations)
  ++ from_option TableEvent.metadataEntries [] event
  ++ default [] definitionMetadata.

(** The first entry of [entries] that bears the label [l], if any. *)
Definition firstEntryWithLabel (l : string) (entries : list MetadataEntry)
    : option MetadataEntry :=
  List.find (fun e => String.eqb (label e) l) entries.

(** The labels of the entry rows of a table body, top to bottom. *)
Definition bodyLabels (body : list BodyRow) : list string :=
  omap (fun b => match b with
                 | EntryRow cells => Some (keyCell cells)
                 | PlaceholderRow _ => None
                 end) body.

(** Of the elements of [l] that share a key, the first only: element [i]
    is kept when no earlier element has its key. *)
Definition keepFirstBy {A : Type} (key : A → string) (l : list A) : list A :=
  map snd
      (List.filter
         (fun ix => forallb (fun y => negb (String.eqb (key y) (key (snd ix))))
                            (take (fst ix) l))
         (zip (seq 0 (length l)) l)).

(** The first observation that lists the label [l], with the first of its
    entries that bears it. *)
Fixpoint firstObservedEntry (l : string) (observations : list TableEvent.t)
    : option (TableEvent.t * MetadataEntry) :=
  match observations with
  | [] => None
  | o :: rest =>
      match firstEntryWithLabel l (TableEvent.metadataEntries o) with
      | Some e => Some (o, e)
      | None => firstObservedEntry l rest
      end
  end.

(** The row the merge is to hold for the label [l], read off the inputs:
    an observation wins over the event, the event over the definition. *)
Definition winnerOfLabel (event : option TableEvent.t)
    (observations : option (list TableEvent.t))
    (definitionMetadata : option (list MetadataEntry))
    (definitionLoadTimestamp : option Z) (l : string) : option Row :=
  let ofDefinition :=
    match firstEntryWithLabel l (default [] definitionMetadata) with
    | Some e =>
        Some {| icon := asset;
                timestamp := TimestampNumber <$> definitionLoadTimestamp;
                runId := RunIdNull;
                entry := e |}
    | None => None
    end in
  let ofEvent :=
    match event with
    | Some ev =>
        match firstEntryWithLabel l (TableEvent.metadataEntries ev) with
        | Some e =>
            Some {| icon := materialization;
                    timestamp := TableEvent.timestamp ev;
                    runId := RunIdNull;
                    entry := e |}
        | None => ofDefinition
        end
    | None => ofDefinition
    end in
  match firstObservedEntry l (default [] observations) with
  | Some (o, e) =>
      Some {| icon := observation;
              timestamp := TableEvent.timestamp o;
              runId := optionalRunId (TableEvent.runId o);
              entry := e |}
  | None => ofEvent
  end.

(** The number of [<td>] of the row of an entry. *)
Definition cellCount (cells : EntryCells) : nat :=
  (1 + match timestampCell cells with Some _ => 1 | None => 0 end
   + 1 + match descriptionCell cells with Some _ => 1 | None => 0 end)%nat.

(** [text] occurs in [label] when the case of letters is disregarded. *)
Definition containsIgnoringCase (label text : string) : Prop :=
  ∃ before after : string,
    JS.toLowerCase label = before +:+ JS.toLowerCase text +:+ after.

(** The remainder of a pagination: the number in "Show N more", and 0
    when no such button is shown. *)
Definition remainder (f : Footer) : Z :=
  match f with
  | ShowMoreButton count => count
  | _ => 0
  end.

(** ** Sample inputs *)

Definition textEntry (l : string) : MetadataEntry :=
  {| typename := "TextMetadataEntry"; label := l; description := None; payload := l |}.

Definition sampleEvent (labels : list string) (run : option string) : TableEvent.t :=
  {| TableEvent.metadataEntries := map textEntry labels;
     TableEvent.timestamp := Some (TimestampString "1700000000000");
     TableEvent.runId := run;
     TableEvent.runOrError := None |}.

(** The merge scenario: the event has a and b, one observation has b and
    c, the definition has a and d. *)
Definition scenarioEvent : option TableEvent.t :=
  Some (sampleEvent ["a"; "b"] (Some "run-e")).

Definition scenarioObservations : option (list TableEvent.t) :=
  Some [sampleEvent ["b"; "c"] (Some "run-o")].

Definition scenarioDefinition : option (list MetadataEntry) :=
  Some [textEntry "a"; textEntry "d"].

Definition scenarioObservedRow (l : string) : Row :=
  {| icon := observation;
     timestamp := Some (TimestampString "1700000000000");
     runId := RunIdString "run-o";
     entry := textEntry l |}.

(** An instance of the imported names, for the examples only. *)
Definition sampleImports : MetadataImports :=
  {| HIDDEN_METADATA_ENTRY_LABELS := {[ "dagster/internal" ]};
     isCanonicalColumnSchemaEntry e := String.eqb (label e) "dagster/column_schema";
     isCanonicalColumnLineageEntry e := String.eqb (label e) "dagster/column_lineage" |}.

Definition sampleProps (ev : option TableEvent.t) (obs : option (list TableEvent.t))
    (defs : option (list MetadataEntry)) (shown : option Z) (empty : ReactNode) : Props.t :=
  {| Props.assetKey := None;
     Props.event := ev;
     Props.observations := obs;
     Props.definitionMetadata := defs;
     Props.definitionLoadTimestamp := Some 1700000000000;
     Props.assetHasDefinedPartitions := None;
     Props.showDescriptions := Some true;
     Props.showTimestamps := Some true;
     Props.showHeader := Some true;
     Props.showFilter := Some true;
     Props.hideTableSchema := Some true;
     Props.displayedByDefault := shown;
     Props.emptyState := empty |}.

(** 150 definition entries with the labels m0, m1, ..., m149. *)
Definition manyEntries : list MetadataEntry :=
  map (fun i : nat => textEntry ("m" +:+ pretty i)) (seq 0 150).

(** Props with the 150 entries and the default of 100 rows. *)
Definition manyProps : Props.t :=
  sampleProps None None (Some manyEntries) (Some 100) NodeUndefined.

(** Props of the merge scenario, and props with every input absent. *)
Definition scenarioProps (empty : ReactNode) : Props.t :=
  sampleProps scenarioEvent scenarioObservations scenarioDefinition None empty.

Definition absentProps (empty : ReactNode) : Props.t :=
  sampleProps None None None None empty.

Definition emptyStateNode : ReactNode := NodeElement "NoMetadata".

(** Props of the merge scenario for a table without a filter bar. *)
Definition plainProps : Props.t :=
  {| Props.assetKey := None;
     Props.event := scenarioEvent;
     Props.observations := scenarioObservations;
     Props.definitionMetadata := scenarioDefinition;
     Props.definitionLoadTimestamp := None;
     Props.assetHasDefinedPartitions := Some true;
     Props.showDescriptions := Some true;
     Props.showTimestamps := None;
     Props.showHeader := None;
     Props.showFilter := None;
     Props.hideTableSchema := None;
     Props.displayedByDefault := Some 2;
     Props.emptyState := NodeUndefined |}.


Definition sampleState (text : string) (count : Z) (v : View) : State.t :=
  {| State.filter := text; State.displayedCount := count;
     State.view := v; State.plotView := PlotTime |}.

(** * Facts about the primitives *)

Section string_facts.

Lemma startsWith_spec (s t : string) :
  JS.startsWith s t = true ↔ ∃ after, s = t +:+ after.
Proof.
  revert s. induction t as [|b t IH]; intros s; simpl.
  - split; [intros _; by exists s | done].
  - destruct s as [|a s]; simpl.
    + split; [done | by intros [after H]].
    + destruct (Ascii.eqb_spec a b) as [->|Hne].
      * rewrite IH. split; intros [after H]; exists after.
        -- by rewrite H.
        -- by injection H.
      * split; [done | intros [after H]; injection H; congruence].
Qed.

Lemma includes_spec (s t : string) :
  JS.includes s t = true ↔ ∃ before after, s = before +:+ t +:+ after.
Proof.
  induction s as [|a s IH]; simpl.
  - rewrite orb_false_r, startsWith_spec. split.
    + intros [after H]. by exists "", after.
    + intros [[|c before] [after H]]; [by exists after | done].
  - rewrite orb_true_iff, startsWith_spec, IH. split.
    + intros [[after H] | (before & after & H)].
      * by exists "", after.
      * exists (String a before), after. simpl. by rewrite H.
    + intros [[|c before] [after H]].
      * left. by exists after.
      * right. injection H as _ H. by exists before, after.
Qed.

Lemma includes_empty (s : string) : JS.includes s "" = true.
Proof. destruct s; reflexivity. Qed.

End string_facts.

Section list_facts.
Context {A : Type}.

Lemma find_app_first (p : A → bool) (l k : list A) :
  List.find p (l ++ k)
  = match List.find p l with
    | Some x => Some x
    | None => List.find p k
    end.
Proof.
  induction l as [|x l IH]; simpl; [done |]. by destruct (p x).
Qed.

Lemma filter_sublist (p : A → bool) (l : list A) : List.filter p l `sublist_of` l.
Proof.
  induction l as [|x l IH]; simpl; [constructor |].
  destruct (p x); by constructor.
Qed.

Lemma filter_sublist_mono (p : A → bool) (l k : list A) :
  l `sublist_of` k → List.filter p l `sublist_of` List.filter p k.
Proof.
  induction 1 as [|x l k _ IH|x l k _ IH]; simpl.
  - constructor.
  - destruct (p x); [by constructor | done].
  - destruct (p x); [by constructor | done].
Qed.

Lemma filter_all (p : A → bool) (l : list A) :
  (∀ x, x ∈ l → p x = true) → List.filter p l = l.
Proof.
  induction l as [|x l IH]; intros Hall; simpl; [done |].
  rewrite (Hall x) by left. f_equal. apply IH. intros y Hy. apply Hall. by right.
Qed.

Lemma filter_none (p : A → bool) (l : list A) :
  (∀ x, x ∈ l → p x = false) → List.filter p l = [].
Proof.
  induction l as [|x l IH]; intros Hall; simpl; [done |].
  rewrite (Hall x) by left. apply IH. intros y Hy. apply Hall. by right.
Qed.

Lemma filter_idempotent (p : A → bool) (l : list A) :
  List.filter p (List.filter p l) = List.filter p l.
Proof.
  apply filter_all. intros x Hx.
  apply list_elem_of_In, List.filter_In in Hx. tauto.
Qed.

Lemma filter_swap (p q : A → bool) (l : list A) :
  List.filter p (List.filter q l) = List.filter q (List.filter p l).
Proof.
  induction l as [|x l IH]; simpl; [done |].
  destruct (q x) eqn:Hq, (p x) eqn:Hp; simpl; rewrite ?Hq, ?Hp, ?IH; done.
Qed.

Lemma elem_of_filter_bool (p : A → bool) (l : list A) (x : A) :
  x ∈ List.filter p l ↔ x ∈ l ∧ p x = true.
Proof. by rewrite !list_elem_of_In, List.filter_In. Qed.

End list_facts.

(** ** [slice(0, end)] *)

Section slice_facts.
Context {A : Type}.

Lemma slice0_nonneg (l : list A) (n : Z) :
  0 ≤ n → JS.slice0 l n = take (Z.to_nat (Z.min n (Z.of_nat (length l)))) l.
Proof.
  intros Hn. unfold JS.slice0.
  destruct (Z.ltb_spec n 0) as [?|_]; [lia |].
  f_equal. lia.
Qed.

Lemma slice0_negative (l : list A) (n : Z) :
  n < 0 → JS.slice0 l n = take (length l - Z.to_nat (- n)) l.
Proof.
  intros Hn. unfold JS.slice0.
  destruct (Z.ltb_spec n 0) as [_|?]; [| lia].
  f_equal. lia.
Qed.

Lemma slice0_length (l : list A) (n : Z) :
  0 ≤ n → Z.of_nat (length (JS.slice0 l n)) = Z.min n (Z.of_nat (length l)).
Proof. intros Hn. rewrite slice0_nonneg, length_take by done. lia. Qed.

Lemma slice0_all (l : list A) (n : Z) :
  Z.of_nat (length l) ≤ n → JS.slice0 l n = l.
Proof.
  intros Hn. rewrite slice0_nonneg by lia.
  apply take_ge. lia.
Qed.

Lemma slice0_nil (n : Z) : JS.slice0 (@nil A) n = [].
Proof. unfold JS.slice0. by rewrite take_nil. Qed.

End slice_facts.

(** ** Subtraction *)

Lemma roundToDouble_exact (z : Z) :
  Z.abs z ≤ 9007199254740992 → JS.roundToDouble z = z.
Proof.
  intros Hz. unfold JS.roundToDouble.
  by destruct (Z.leb_spec (Z.abs z) 9007199254740992); [| lia].
Qed.

(** The difference of a length and a count that is not negative is exact. *)
Lemma subtract_length (len n : Z) :
  0 ≤ n → n ≤ len → len ≤ JS.MAX_ARRAY_LENGTH → JS.subtract len n = len - n.
Proof.
  unfold JS.MAX_ARRAY_LENGTH, JS.subtract. intros Hn Hlen Hmax.
  apply roundToDouble_exact. lia.
Qed.

(** ** lodash [uniqBy] *)

Section uniqBy_facts.
Context {A K : Type} `{EqDecision K} (f : A → K).

(** The accumulator [result] is only ever extended at its end. *)
Lemma baseUniq_result (array : list A) (seen : list K) (result : list A) :
  JS.baseUniq f seen result array = result ++ JS.baseUniq f seen [] array.
Proof.
  revert seen result. induction array as [|x rest IH]; intros seen result; simpl.
  - by rewrite app_nil_r.
  - case_bool_decide.
    + apply IH.
    + rewrite (IH _ (result ++ [x])), (IH _ [x]). by rewrite <- app_assoc.
Qed.

Lemma baseUniq_cons (seen : list K) (x : A) (rest : list A) :
  JS.baseUniq f seen [] (x :: rest)
  = if bool_decide (f x ∈ seen) then JS.baseUniq f seen [] rest
    else x :: JS.baseUniq f (seen ++ [f x]) [] rest.
Proof.
  simpl. case_bool_decide; [done |]. by rewrite baseUniq_result.
Qed.

Lemma baseUniq_sublist (array : list A) (seen : list K) :
  JS.baseUniq f seen [] array `sublist_of` array.
Proof.
  revert seen. induction array as [|x rest IH]; intros seen.
  - constructor.
  - rewrite baseUniq_cons. case_bool_decide; by constructor.
Qed.

Lemma baseUniq_fresh (array : list A) (seen : list K) (x : A) :
  x ∈ JS.baseUniq f seen [] array → f x ∉ seen.
Proof.
  revert seen. induction array as [|y rest IH]; intros seen.
  - by intros ?%elem_of_nil.
  - rewrite baseUniq_cons. case_bool_decide as Hy.
    + apply IH.
    + intros [->|Hx]%elem_of_cons; [done |].
      apply IH in Hx. rewrite elem_of_app in Hx. tauto.
Qed.

Lemma baseUniq_NoDup (array : list A) (seen : list K) :
  NoDup (map f (JS.baseUniq f seen [] array)).
Proof.
  revert seen. induction array as [|y rest IH]; intros seen.
  - constructor.
  - rewrite baseUniq_cons. case_bool_decide as Hy; [apply IH |].
    simpl. constructor; [| apply IH].
    intros (x & Hfx & Hx)%list_elem_of_fmap.
    apply baseUniq_fresh in Hx. apply Hx.
    rewrite elem_of_app, list_elem_of_singleton. by right.
Qed.

(** For a key not seen before the pass, the first value with that key
    is the same before and after. *)
Lemma baseUniq_find (p : A → bool) (k : K) :
  (∀ x, p x = true ↔ f x = k) →
  ∀ (array : list A) (seen : list K),
    k ∉ seen → List.find p (JS.baseUniq f seen [] array) = List.find p array.
Proof.
  intros Hp. induction array as [|y rest IH]; intros seen Hk; [done |].
  rewrite baseUniq_cons. simpl.
  destruct (p y) eqn:Hpy.
  - pose proof (proj1 (Hp y) Hpy) as Hfy.
    rewrite bool_decide_eq_false_2 by congruence. simpl. by rewrite Hpy.
  - case_bool_decide as Hy; [by apply IH |].
    simpl. rewrite Hpy. apply IH.
    rewrite elem_of_app, list_elem_of_singleton. intros [?|Hky]; [done |].
    assert (p y = true) by (by apply Hp). congruence.
Qed.

End uniqBy_facts.

(** * The merge *)

Section merge_facts.

Lemma allRows_unfold event observations definitionMetadata ts :
  allRows event observations definitionMetadata ts
  = JS.baseUniq rowLabel [] []
      (concatenatedRows event observations definitionMetadata ts).
Proof. reflexivity. Qed.

Lemma eventRows_icon event (r : Row) :
  r ∈ eventRows event → icon r = materialization ∧ runId r = RunIdNull.
Proof.
  destruct event as [ev|]; simpl; [| by intros ?%elem_of_nil].
  by intros (e & -> & _)%list_elem_of_fmap.
Qed.

Lemma definitionRows_icon defs ts (r : Row) :
  r ∈ definitionRows defs ts → icon r = asset ∧ runId r = RunIdNull.
Proof. by intros (e & -> & _)%list_elem_of_fmap. Qed.

Lemma observationRows_source observations (r : Row) :
  r ∈ observationRows observations →
  icon r = observation
  ∧ ∃ o, o ∈ default [] observations
         ∧ entry r ∈ TableEvent.metadataEntries o
         ∧ runId r = optionalRunId (TableEvent.runId o)
         ∧ timestamp r = TableEvent.timestamp o.
Proof.
  unfold observationRows. rewrite list_elem_of_In, in_flat_map.
  intros (o & Ho & Hr). apply list_elem_of_In, list_elem_of_fmap in Hr as (e & -> & He).
  split; [done |]. exists o. by rewrite list_elem_of_In.
Qed.

Lemma eventRows_entries event :
  map entry (eventRows event) = from_option TableEvent.metadataEntries [] event.
Proof.
  destruct event as [ev|]; simpl; [| done].
  induction (TableEvent.metadataEntries ev) as [|e l IH]; simpl; by f_equal.
Qed.

Lemma definitionRows_entries defs ts :
  map entry (definitionRows defs ts) = default [] defs.
Proof.
  unfold definitionRows.
  induction (default [] defs) as [|e l IH]; simpl; by f_equal.
Qed.

Lemma observationRows_entries observations :
  map entry (observationRows observations)
  = flat_map TableEvent.metadataEntries (default [] observations).
Proof.
  unfold observationRows.
  induction (default [] observations) as [|o l IH]; simpl; [done |].
  rewrite map_app, IH. f_equal.
  induction (TableEvent.metadataEntries o) as [|e es IHe]; simpl; by f_equal.
Qed.

Lemma concatenatedRows_length event observations defs ts :
  length (concatenatedRows event observations defs ts)
  = totalInputRows event observations defs.
Proof.
  unfold concatenatedRows, totalInputRows.
  rewrite !length_app.
  rewrite <- (length_map entry (eventRows event)), eventRows_entries.
  rewrite <- (length_map entry (definitionRows defs ts)), definitionRows_entries.
  assert (length (observationRows observations)
          = sum_list (map (fun o => length (TableEvent.metadataEntries o))
                          (default [] observations))) as ->; [| lia].
  unfold observationRows.
  induction (default [] observations) as [|o l IH]; simpl; [done |].
  by rewrite length_app, length_map, IH.
Qed.

(** Settles what the icon of a row of a given tier is. *)
Ltac tier_icon :=
  let r := fresh "r" in
  let Hr := fresh "Hr" in
  intros r Hr;
  first [ apply definitionRows_icon in Hr as [-> _]
        | apply eventRows_icon in Hr as [-> _]
        | apply observationRows_source in Hr as [-> _] ];
  done.

Lemma tierRows_concatenated event observations defs ts :
  tierRows observation (concatenatedRows event observations defs ts)
    = observationRows observations
  ∧ tierRows materialization (concatenatedRows event observations defs ts)
    = eventRows event
  ∧ tierRows asset (concatenatedRows event observations defs ts)
    = definitionRows defs ts.
Proof.
  unfold tierRows, concatenatedRows. rewrite !List.filter_app.
  repeat split.
  - rewrite filter_all, !filter_none; [by rewrite !app_nil_r | ..]; tier_icon.
  - rewrite (filter_all _ (eventRows _)), !filter_none;
      [by rewrite app_nil_r | ..]; tier_icon.
  - rewrite (filter_all _ (definitionRows _ _)), !filter_none; [done | ..]; tier_icon.
Qed.

Lemma firstOfItsLabel_prefix (pre rest : list Row) (seen : list string) (x : Row) :
  (∀ k, k ∈ seen ↔ k ∈ map rowLabel pre) →
  firstOfItsLabel (pre ++ x :: rest) (length pre) x
  = negb (bool_decide (rowLabel x ∈ seen)).
Proof.
  intros Hseen. unfold firstOfItsLabel. rewrite take_app_length.
  case_bool_decide as Hx; simpl.
  - apply Hseen, list_elem_of_fmap in Hx as (r & Hr & Hin).
    apply not_true_iff_false. rewrite forallb_forall.
    intros Hall. specialize (Hall r (proj1 (list_elem_of_In _ _) Hin)).
    apply negb_true_iff, String.eqb_neq in Hall. congruence.
  - apply forallb_forall. intros r Hin%list_elem_of_In.
    apply negb_true_iff, String.eqb_neq. intros Heq.
    apply Hx, Hseen, list_elem_of_fmap. by exists r.
Qed.

(** The pass of [baseUniq] keeps exactly the rows that are the first of
    their label. *)
Lemma baseUniq_dedup (rest pre : list Row) (seen : list string) :
  (∀ k, k ∈ seen ↔ k ∈ map rowLabel pre) →
  JS.baseUniq rowLabel seen [] rest
  = map snd (List.filter (fun ir => firstOfItsLabel (pre ++ rest) (fst ir) (snd ir))
                         (zip (seq (length pre) (length rest)) rest)).
Proof.
  revert pre seen. induction rest as [|x rest IH]; intros pre seen Hseen; [done |].
  rewrite baseUniq_cons. simpl.
  rewrite (firstOfItsLabel_prefix pre rest seen x Hseen).
  assert (pre ++ x :: rest = (pre ++ [x]) ++ rest) as Hmid by by rewrite <- app_assoc.
  assert (S (length pre) = length (pre ++ [x])) as Hlen
    by (rewrite length_app; simpl; lia).
  rewrite Hmid, Hlen.
  case_bool_decide as Hx; simpl.
  - apply IH. intros k. rewrite map_app, elem_of_app, Hseen. simpl.
    rewrite list_elem_of_singleton. split; [tauto |].
    intros [?| ->]; [done |]. by apply Hseen.
  - f_equal. apply IH. intros k. rewrite map_app, !elem_of_app, Hseen. done.
Qed.

End merge_facts.

(** ** Claims about the merge *)

(** The merge scenario of the specification: the merged labels are
    b, c, a, d. *)
Example allRows_scenario :
  map rowLabel (allRows scenarioEvent scenarioObservations scenarioDefinition None)
  = ["b"; "c"; "a"; "d"]
  ∧ map icon (allRows scenarioEvent scenarioObservations scenarioDefinition None)
    = [observation; observation; materialization; asset].
Proof. split; reflexivity. Qed.

(** C2. For all inputs, absent ones included, [allRows] is no longer than
    the total input row count, bears every label once, is a subsequence of
    the concatenated input, and the entries of each provenance tier appear
    in it in the order they have in the input of that tier. An absent
    event, absent observations and absent definition metadata give the same
    result as empty sequences. *)
Theorem allRows_length_unique_stable event observations definitionMetadata ts :
  (length (allRows event observations definitionMetadata ts)
   ≤ totalInputRows event observations definitionMetadata)%nat
  ∧ NoDup (map rowLabel (allRows event observations definitionMetadata ts))
  ∧ allRows event observations definitionMetadata ts
    `sublist_of` concatenatedRows event observations definitionMetadata ts
  ∧ map entry (tierRows observation (allRows event observations definitionMetadata ts))
    `sublist_of` flat_map TableEvent.metadataEntries (default [] observations)
  ∧ map entry (tierRows materialization (allRows event observations definitionMetadata ts))
    `sublist_of` from_option TableEvent.metadataEntries [] event
  ∧ map entry (tierRows asset (allRows event observations definitionMetadata ts))
    `sublist_of` default [] definitionMetadata
  ∧ (∀ t r e,
       allRows None observations definitionMetadata ts
       = allRows (Some {| TableEvent.metadataEntries := []; TableEvent.timestamp := t;
                          TableEvent.runId := r; TableEvent.runOrError := e |})
                 observations definitionMetadata ts)
  ∧ allRows event None definitionMetadata ts = allRows event (Some []) definitionMetadata ts
  ∧ allRows event observations None ts = allRows event observations (Some []) ts
  ∧ allRows None None None ts = [].
Proof.
  pose proof (baseUniq_sublist rowLabel
                (concatenatedRows event observations definitionMetadata ts) [])
    as Hsub.
  rewrite <- allRows_unfold in Hsub.
  destruct (tierRows_concatenated event observations definitionMetadata ts)
    as (Hobs & Hev & Hdef).
  repeat split; try reflexivity.
  - rewrite <- concatenatedRows_length with (ts := ts). by apply sublist_length.
  - rewrite allRows_unfold. apply baseUniq_NoDup.
  - exact Hsub.
  - rewrite <- observationRows_entries, <- Hobs.
    apply fmap_sublist. by apply filter_sublist_mono.
  - rewrite <- eventRows_entries, <- Hev.
    apply fmap_sublist. by apply filter_sublist_mono.
  - rewrite <- (definitionRows_entries definitionMetadata ts), <- Hdef.
    apply fmap_sublist. by apply filter_sublist_mono.
Qed.

(** C10. Every merged row comes from one of the three tiers; a merged row
    that comes from the current event or from the definition metadata has
    the run identifier [null], whatever [runId] the event carries; a merged
    row whose run identifier is not [null] is an observation row, and its
    run identifier is the [runId] of the observation its entry belongs to. *)
Theorem allRows_runId event observations definitionMetadata ts (r : Row) :
  r ∈ allRows event observations definitionMetadata ts →
  (r ∈ observationRows observations ∨ r ∈ eventRows event
   ∨ r ∈ definitionRows definitionMetadata ts)
  ∧ (r ∈ eventRows event ∨ r ∈ definitionRows definitionMetadata ts →
     runId r = RunIdNull)
  ∧ (runId r ≠ RunIdNull →
     icon r = observation
     ∧ ∃ o, o ∈ default [] observations
            ∧ entry r ∈ TableEvent.metadataEntries o
            ∧ runId r = optionalRunId (TableEvent.runId o)).
Proof.
  intros Hr.
  assert (r ∈ concatenatedRows event observations definitionMetadata ts) as Hin.
  { eapply elem_of_sublist; [exact Hr |]. rewrite allRows_unfold. apply baseUniq_sublist. }
  unfold concatenatedRows in Hin. rewrite !elem_of_app in Hin.
  split; [exact Hin |]. split.
  - intros [[_ H]%eventRows_icon | [_ H]%definitionRows_icon]; exact H.
  - intros Hrun. destruct Hin as [Ho | [He | Hd]].
    + apply observationRows_source in Ho as (Hicon & o & Hin & Hent & Hid & _).
      split; [done |]. by exists o.
    + apply eventRows_icon in He as [_ H]. done.
    + apply definitionRows_icon in Hd as [_ H]. done.
Qed.

Lemma allRows_runId_witness :
  scenarioObservedRow "b"
    ∈ allRows scenarioEvent scenarioObservations scenarioDefinition None
  ∧ runId (scenarioObservedRow "b") ≠ RunIdNull
  ∧ icon (scenarioObservedRow "b") = observation
  ∧ ∃ o, o ∈ default [] scenarioObservations
         ∧ entry (scenarioObservedRow "b") ∈ TableEvent.metadataEntries o
         ∧ runId (scenarioObservedRow "b") = optionalRunId (TableEvent.runId o).
Proof.
  assert (scenarioObservedRow "b"
            ∈ allRows scenarioEvent scenarioObservations scenarioDefinition None) as Hin.
  { vm_compute. apply list_elem_of_here. }
  split; [exact Hin |]. split; [discriminate |].
  apply (allRows_runId _ _ _ _ _ Hin). discriminate.
Defined.

(** * The filter *)

Section filter_facts.
Context `{MetadataImports}.

Lemma matchesFilter_empty (row : Row) : matchesFilter "" row = true.
Proof. reflexivity. Qed.

Lemma matchesFilter_contains (text : string) (row : Row) :
  matchesFilter text row = true → containsIgnoringCase (rowLabel row) text.
Proof.
  unfold matchesFilter, containsIgnoringCase.
  destruct text as [|c text].
  - intros _. by exists "", (JS.toLowerCase (rowLabel row)).
  - simpl. by intros ?%includes_spec.
Qed.

Lemma elem_of_filteredRows (rows : list Row) (text : string) (hide : option bool)
    (r : Row) :
  r ∈ filteredRows rows text hide
  ↔ r ∈ rows ∧ matchesFilter text r = true ∧ isShown hide r = true.
Proof.
  unfold filteredRows. rewrite !elem_of_filter_bool. tauto.
Qed.

Lemma filteredRows_sublist (rows : list Row) (text : string) (hide : option bool) :
  filteredRows rows text hide `sublist_of` rows.
Proof.
  unfold filteredRows.
  transitivity (List.filter (matchesFilter text) rows); apply filter_sublist.
Qed.

End filter_facts.

(** ** Claims about the filter *)

(** C3, as the code has it. With the empty filter text the substring step
    removes no row, whatever the rows, and [filteredRows] is the fixed
    exclusions alone. The text is not trimmed: only the empty string is
    "no filter". *)
Theorem filteredRows_empty_text `{MetadataImports} (rows : list Row) (hide : option bool) :
  List.filter (matchesFilter "") rows = rows
  ∧ filteredRows rows "" hide = List.filter (isShown hide) rows.
Proof.
  assert (List.filter (matchesFilter "") rows = rows) as Hall
    by (apply filter_all; intros; apply matchesFilter_empty).
  split; [exact Hall |]. unfold filteredRows. by rewrite Hall.
Qed.

(** C3, as the specification has it, fails: the text of one space is
    white space only, yet the substring step removes the row labelled "b",
    which the empty text keeps. *)
Lemma filteredRows_whitespace_text :
  JS.whitespaceOnly " " = true
  ∧ List.filter (matchesFilter " ") [scenarioObservedRow "b"] = []
  ∧ filteredRows (H := sampleImports) [scenarioObservedRow "b"] " " None = []
  ∧ filteredRows (H := sampleImports) [scenarioObservedRow "b"] "" None
    = [scenarioObservedRow "b"].
Proof. repeat split; reflexivity. Qed.

(** C4. For every row sequence and every filter text, [filteredRows] is a
    subsequence of its input, and the label of every row it keeps contains
    the filter text when the case of letters is disregarded. *)
Theorem filteredRows_subsequence_match `{MetadataImports}
    (rows : list Row) (text : string) (hide : option bool) :
  filteredRows rows text hide `sublist_of` rows
  ∧ Forall (fun r => containsIgnoringCase (rowLabel r) text)
           (filteredRows rows text hide).
Proof.
  split; [apply filteredRows_sublist |].
  apply Forall_forall. intros r (_ & Hmatch & _)%elem_of_filteredRows.
  by apply matchesFilter_contains.
Qed.

(** C5. Whatever the rows and the filter text, a row of [filteredRows] has
    no label of the hidden-label set, is no column-lineage entry, and, when
    [hideTableSchema] is set, is no column-schema entry. *)
Theorem filteredRows_exclusions `{MetadataImports}
    (rows : list Row) (text : string) (hide : option bool) (r : Row) :
  r ∈ filteredRows rows text hide →
  (rowLabel r ∉ HIDDEN_METADATA_ENTRY_LABELS)
  ∧ isCanonicalColumnLineageEntry (entry r) = false
  ∧ (JS.truthy_flag hide = true → isCanonicalColumnSchemaEntry (entry r) = false).
Proof.
  intros (_ & _ & Hshown)%elem_of_filteredRows.
  unfold isShown in Hshown.
  apply andb_true_iff in Hshown as [[Hhidden Hschema]%andb_true_iff Hlineage].
  apply negb_true_iff in Hhidden, Hschema, Hlineage.
  split; [by apply bool_decide_eq_false in Hhidden |].
  split; [exact Hlineage |].
  intros Hhide. rewrite Hhide, andb_true_r in Hschema. exact Hschema.
Qed.

Lemma filteredRows_exclusions_witness :
  scenarioObservedRow "b"
    ∈ filteredRows (H := sampleImports)
        [scenarioObservedRow "dagster/internal"; scenarioObservedRow "dagster/column_schema";
         scenarioObservedRow "b"; scenarioObservedRow "dagster/column_lineage"]
        "" (Some true)
  ∧ (rowLabel (scenarioObservedRow "b") ∉ @HIDDEN_METADATA_ENTRY_LABELS sampleImports)
  ∧ @isCanonicalColumnLineageEntry sampleImports (entry (scenarioObservedRow "b")) = false
  ∧ (JS.truthy_flag (Some true) = true →
     @isCanonicalColumnSchemaEntry sampleImports (entry (scenarioObservedRow "b")) = false).
Proof.
  assert (scenarioObservedRow "b"
            ∈ filteredRows (H := sampleImports)
                [scenarioObservedRow "dagster/internal";
                 scenarioObservedRow "dagster/column_schema";
                 scenarioObservedRow "b"; scenarioObservedRow "dagster/column_lineage"]
                "" (Some true)) as Hin.
  { vm_compute. apply list_elem_of_here. }
  split; [exact Hin |].
  exact (filteredRows_exclusions _ _ _ _ Hin).
Defined.

(** The fixed exclusions at work: of a hidden label, a column schema, an
    ordinary entry and a column lineage, only the ordinary entry is shown
    when [hideTableSchema] is set; the column schema is shown too when it
    is not. *)
Example exclusions_sample :
  filteredRows (H := sampleImports)
    [scenarioObservedRow "dagster/internal"; scenarioObservedRow "dagster/column_schema";
     scenarioObservedRow "b"; scenarioObservedRow "dagster/column_lineage"]
    "" (Some true)
  = [scenarioObservedRow "b"]
  ∧ filteredRows (H := sampleImports)
      [scenarioObservedRow "dagster/internal"; scenarioObservedRow "dagster/column_schema";
       scenarioObservedRow "b"; scenarioObservedRow "dagster/column_lineage"]
      "" None
    = [scenarioObservedRow "dagster/column_schema"; scenarioObservedRow "b"].
Proof. split; reflexivity. Qed.

(** The substring step disregards case on both sides. *)
Example filteredRows_case_sample :
  map rowLabel
    (filteredRows (H := sampleImports)
       [scenarioObservedRow "Row_Count"; scenarioObservedRow "size"; scenarioObservedRow "rows"]
       "ROW" None)
  = ["Row_Count"; "rows"].
Proof. reflexivity. Qed.

(** C9. Filtering twice with the same arguments is filtering once. *)
Theorem filteredRows_idempotent `{MetadataImports}
    (rows : list Row) (t : string) (hide : option bool) :
  filteredRows (filteredRows rows t hide) t hide = filteredRows rows t hide.
Proof.
  unfold filteredRows.
  rewrite (filter_swap (matchesFilter t) (isShown hide)).
  by rewrite !filter_idempotent.
Qed.

(** * The rendered table *)

Section render_facts.
Context `{MetadataImports}.

Lemma render_short_circuit (props : Props.t) (state : State.t) :
  truthy_node (Props.emptyState props) = true →
  allRowsOf props = [] →
  render props state = ReturnNode (Props.emptyState props).
Proof. intros Hnode Hrows. unfold render. by rewrite Hnode, Hrows. Qed.

Lemma render_fragment (props : Props.t) (state : State.t) :
  allRowsOf props ≠ [] ∨ truthy_node (Props.emptyState props) = false →
  render props state
  = ReturnFragment
      (if JS.truthy_flag (Props.showFilter props)
       then Some (renderFilterBar state) else None)
      (match State.view state with
       | ViewTable => Some (renderTable props state)
       | ViewPlots => None
       end)
      (match State.view state with
       | ViewPlots => Some (renderPlots props state)
       | ViewTable => None
       end).
Proof.
  intros Hcase. unfold render.
  destruct Hcase as [Hrows | ->]; [| done].
  destruct (allRowsOf props); [done |]. simpl. by rewrite andb_false_r.
Qed.

Lemma filteredRowsOf_nonempty (props : Props.t) (state : State.t) :
  filteredRowsOf props state ≠ [] → allRowsOf props ≠ [].
Proof.
  intros Hne Hall. apply Hne.
  unfold filteredRowsOf. by rewrite Hall.
Qed.

Lemma tableBody_empty (props : Props.t) (n : Z) :
  tableBody props [] n = [PlaceholderRow "No metadata entries"].
Proof. unfold tableBody, displayedRows. by rewrite slice0_nil. Qed.

Lemma tableBody_length (props : Props.t) (rows : list Row) (n : Z) :
  rows ≠ [] → length (tableBody props rows n) = length (displayedRows rows n).
Proof.
  intros Hne. unfold tableBody. destruct rows; [done |].
  simpl. by rewrite length_map.
Qed.

Lemma tableFooter_remainder (rows : list Row) (n shown : Z) :
  0 ≤ n → Z.of_nat (length rows) ≤ JS.MAX_ARRAY_LENGTH →
  remainder (tableFooter rows n shown) = Z.max 0 (Z.of_nat (length rows) - n).
Proof.
  intros Hn Hmax. unfold tableFooter.
  destruct (Z.ltb_spec n (Z.of_nat (length rows))); simpl.
  - rewrite subtract_length by lia. lia.
  - destruct (n >? shown); simpl; lia.
Qed.

End render_facts.

(** ** Claims about the prefix shown *)

(** C6. For every row sequence and every count n (a number that is not
    negative), the rows shown are exactly the first min(n, len) rows, and
    the number of "Show N more", or 0 when there is no such button, is
    max(0, len - n); with the "show all" sentinel [Number.MAX_SAFE_INTEGER]
    all rows of an array are shown and nothing remains. *)
Theorem displayedRows_clamp (rows : list Row) (n shown : Z) :
  (0 ≤ n →
   displayedRows rows n = take (Z.to_nat (Z.min n (Z.of_nat (length rows)))) rows
   ∧ Z.of_nat (length (displayedRows rows n)) = Z.min n (Z.of_nat (length rows)))
  ∧ (0 ≤ n → Z.of_nat (length rows) ≤ JS.MAX_ARRAY_LENGTH →
     remainder (tableFooter rows n shown) = Z.max 0 (Z.of_nat (length rows) - n))
  ∧ (Z.of_nat (length rows) ≤ JS.MAX_ARRAY_LENGTH →
     displayedRows rows JS.MAX_SAFE_INTEGER = rows
     ∧ remainder (tableFooter rows JS.MAX_SAFE_INTEGER shown) = 0).
Proof.
  split; [| split].
  - intros Hn. unfold displayedRows. split.
    + by apply slice0_nonneg.
    + by apply slice0_length.
  - apply tableFooter_remainder.
  - intros Hlen. split.
    + apply slice0_all. unfold JS.MAX_ARRAY_LENGTH, JS.MAX_SAFE_INTEGER in *. lia.
    + rewrite tableFooter_remainder by (unfold JS.MAX_SAFE_INTEGER; lia || done).
      unfold JS.MAX_ARRAY_LENGTH, JS.MAX_SAFE_INTEGER in *. lia.
Qed.

Lemma displayedRows_clamp_witness :
  (0 ≤ 2
   ∧ displayedRows (allRows scenarioEvent scenarioObservations scenarioDefinition None) 2
     = [scenarioObservedRow "b"; scenarioObservedRow "c"]
   ∧ remainder (tableFooter
                  (allRows scenarioEvent scenarioObservations scenarioDefinition None)
                  2 100) = 2)
  ∧ (Z.of_nat (length (allRows scenarioEvent scenarioObservations scenarioDefinition None))
     ≤ JS.MAX_ARRAY_LENGTH
     ∧ displayedRows (allRows scenarioEvent scenarioObservations scenarioDefinition None)
         JS.MAX_SAFE_INTEGER
       = allRows scenarioEvent scenarioObservations scenarioDefinition None
     ∧ remainder (tableFooter
                    (allRows scenarioEvent scenarioObservations scenarioDefinition None)
                    JS.MAX_SAFE_INTEGER 100) = 0).
Proof.
  destruct (displayedRows_clamp
              (allRows scenarioEvent scenarioObservations scenarioDefinition None) 2 100)
    as (Hprefix & Hrem & Hall).
  assert (0 ≤ 2) as Hn by lia.
  assert (Z.of_nat (length (allRows scenarioEvent scenarioObservations
                              scenarioDefinition None))
          ≤ JS.MAX_ARRAY_LENGTH) as Hlen by (vm_compute; discriminate).
  split.
  - split; [exact Hn |]. split.
    + rewrite (proj1 (Hprefix Hn)). reflexivity.
    + rewrite (Hrem Hn Hlen). reflexivity.
  - split; [exact Hlen |]. exact (Hall Hlen).
Defined.

(** Far below zero the number of "Show N more" is a rounded one: with five
    rows and a displayed count of -2^53 the difference 2^53 + 5 is no
    double, and the button shows 2^53 + 4. *)
Example tableFooter_rounded :
  tableFooter (map scenarioObservedRow ["a"; "b"; "c"; "d"; "e"])
              (-9007199254740992) 100
  = ShowMoreButton 9007199254740996.
Proof. reflexivity. Qed.

(** A negative [displayedCount] is no count: [slice] then drops rows from
    the end. *)
Example displayedRows_negative :
  map rowLabel
    (displayedRows (allRows scenarioEvent scenarioObservations scenarioDefinition None) (-1))
  = ["b"; "c"; "a"].
Proof. reflexivity. Qed.

(** ** Claims about the empty state *)

(** C7, as the code has it. When the merged rows are empty and the caller
    gave a (truthy) [emptyState], the component returns that node itself
    instead of a table, in particular when event, observations and
    definition metadata are all absent. When the merged rows are not empty,
    the filtered rows are empty and the table view is selected, the body of
    the table is the single "No metadata entries" placeholder row. In the
    plots view no table is rendered. *)
Theorem render_empty_state `{MetadataImports} (props : Props.t) (state : State.t) :
  (truthy_node (Props.emptyState props) = true →
   allRowsOf props = [] →
   render props state = ReturnNode (Props.emptyState props))
  ∧ (truthy_node (Props.emptyState props) = true →
     Props.event props = None →
     Props.observations props = None →
     Props.definitionMetadata props = None →
     render props state = ReturnNode (Props.emptyState props))
  ∧ (allRowsOf props ≠ [] →
     filteredRowsOf props state = [] →
     State.view state = ViewTable →
     renderedTable (render props state) = Some (renderTable props state)
     ∧ tbody (renderTable props state) = [PlaceholderRow "No metadata entries"])
  ∧ (allRowsOf props ≠ [] →
     State.view state = ViewPlots →
     renderedTable (render props state) = None).
Proof.
  split; [apply render_short_circuit |]. split; [| split].
  - intros Hnode Hev Hobs Hdef. apply render_short_circuit; [done |].
    unfold allRowsOf. by rewrite Hev, Hobs, Hdef.
  - intros Hall Hfiltered Hview.
    rewrite render_fragment by by left. rewrite Hview. split; [done |].
    unfold renderTable. simpl. rewrite Hfiltered. apply tableBody_empty.
  - intros Hall Hview. rewrite render_fragment by by left. by rewrite Hview.
Qed.

Lemma render_empty_state_witness :
  render (H := sampleImports) (absentProps emptyStateNode)
         (initialState (absentProps emptyStateNode))
  = ReturnNode emptyStateNode
  ∧ allRowsOf (scenarioProps emptyStateNode) ≠ []
  ∧ filteredRowsOf (H := sampleImports) (scenarioProps emptyStateNode)
      (sampleState "zzz" 100 ViewTable) = []
  ∧ tbody (renderTable (H := sampleImports) (scenarioProps emptyStateNode)
             (sampleState "zzz" 100 ViewTable))
    = [PlaceholderRow "No metadata entries"].
Proof.
  destruct (render_empty_state (H := sampleImports) (absentProps emptyStateNode)
              (initialState (absentProps emptyStateNode)))
    as (_ & Habsent & _).
  destruct (render_empty_state (H := sampleImports) (scenarioProps emptyStateNode)
              (sampleState "zzz" 100 ViewTable))
    as (_ & _ & Hplaceholder & _).
  assert (allRowsOf (scenarioProps emptyStateNode) ≠ []) as Hall by discriminate.
  assert (filteredRowsOf (H := sampleImports) (scenarioProps emptyStateNode)
            (sampleState "zzz" 100 ViewTable) = []) as Hfiltered by reflexivity.
  split; [exact (Habsent eq_refl eq_refl eq_refl eq_refl) |].
  split; [exact Hall |]. split; [exact Hfiltered |].
  exact (proj2 (Hplaceholder Hall Hfiltered eq_refl)).
Defined.

(** C7, as the specification has it, fails in the plots view: with props
    that never change, after typing "zzz" in the filter box and switching
    to the plots, the merged rows are not empty, the filtered rows are, and
    the render holds the plots and no table, hence no placeholder row. *)
Lemma render_plots_no_placeholder :
  reachable (H := sampleImports) (eq (scenarioProps emptyStateNode))
            (scenarioProps emptyStateNode) (sampleState "zzz" 100 ViewPlots)
  ∧ allRowsOf (scenarioProps emptyStateNode) ≠ []
  ∧ filteredRowsOf (H := sampleImports) (scenarioProps emptyStateNode)
      (sampleState "zzz" 100 ViewPlots) = []
  ∧ render (H := sampleImports) (scenarioProps emptyStateNode)
           (sampleState "zzz" 100 ViewPlots)
    = ReturnFragment
        (Some {| control := PlotViewButtons PlotTime; activeView := ViewPlots |})
        None
        (Some {| plots_assetKey := None; params := PlotTime;
                 plots_assetHasDefinedPartitions := false |}).
Proof.
  split; [| split; [discriminate | split; reflexivity]].
  apply (reachable_step _ _ (sampleState "zzz" 100 ViewTable) (ClickView ViewPlots)).
  - apply (reachable_step _ _ (initialState (scenarioProps emptyStateNode))
             (ChangeFilter "zzz")).
    + by apply reachable_mount.
    + exact (step_handle (H := sampleImports) (scenarioProps emptyStateNode)
               (initialState (scenarioProps emptyStateNode)) (ChangeFilter "zzz") eq_refl).
  - exact (step_handle (H := sampleImports) (scenarioProps emptyStateNode)
             (sampleState "zzz" 100 ViewTable) (ClickView ViewPlots) eq_refl).
Qed.

(** The test of [emptyState] is one of truthiness: a node such as the
    number 0 or the empty string does not short-circuit the render. *)
Example render_falsy_emptyState :
  renderedTable (render (H := sampleImports) (absentProps (NodeNumber 0))
                        (initialState (absentProps (NodeNumber 0))))
  = Some (renderTable (H := sampleImports) (absentProps (NodeNumber 0))
                      (initialState (absentProps (NodeNumber 0)))).
Proof. reflexivity. Qed.

(** * Show more, show less *)

Section displayedCount_facts.
Context `{MetadataImports}.

Lemma tableFooter_more (rows : list Row) (n shown : Z) :
  0 ≤ n → n < Z.of_nat (length rows) →
  Z.of_nat (length rows) ≤ JS.MAX_ARRAY_LENGTH →
  tableFooter rows n shown = ShowMoreButton (Z.of_nat (length rows) - n).
Proof.
  intros Hn Hlt Hmax. unfold tableFooter.
  destruct (Z.ltb_spec n (Z.of_nat (length rows))); [| lia].
  by rewrite subtract_length by lia.
Qed.

Lemma tableFooter_less (rows : list Row) (n shown : Z) :
  Z.of_nat (length rows) ≤ n → shown < n →
  tableFooter rows n shown = ShowLessButton.
Proof.
  intros Hlen Hn. unfold tableFooter.
  destruct (Z.ltb_spec n (Z.of_nat (length rows))); [lia |].
  by rewrite (proj2 (Z.gtb_gt n shown)) by lia.
Qed.

Lemma handle_displayedCount (props : Props.t) (state : State.t) (a : Action) :
  State.displayedCount (handle props state a)
  = match a with
    | ClickShowMore => JS.MAX_SAFE_INTEGER
    | ClickShowLess => displayedByDefault props
    | _ => State.displayedCount state
    end.
Proof. by destruct a. Qed.

(** [displayedCount] only ever holds the sentinel or the default of props
    the component has had. *)
Lemma reachable_displayedCount (allowed : Props.t → Prop) (props : Props.t)
    (state : State.t) :
  reachable allowed props state →
  State.displayedCount state = JS.MAX_SAFE_INTEGER
  ∨ ∃ p, allowed p ∧ State.displayedCount state = default 100 (Props.displayedByDefault p).
Proof.
  induction 1 as [props Hp|props state a state' Hreach IH Hstep|props props' state _ IH _].
  - right. by exists props.
  - destruct Hstep as [state a _].
    rewrite handle_displayedCount. destruct a; auto.
    right. exists props. split; [| done].
    clear IH. induction Hreach; auto.
  - exact IH.
Qed.

(** While the caller keeps to one default, [displayedCount] is that
    default or the sentinel. *)
Lemma reachable_displayedCount_fixed (allowed : Props.t → Prop) (d : Z)
    (props : Props.t) (state : State.t) :
  (∀ p, allowed p → default 100 (Props.displayedByDefault p) = d) →
  reachable allowed props state →
  State.displayedCount state = d ∨ State.displayedCount state = JS.MAX_SAFE_INTEGER.
Proof.
  intros Hfixed Hreach.
  destruct (reachable_displayedCount _ _ _ Hreach) as [Hmax | (p & Hp & Hd)]; [by right |].
  left. by rewrite Hd, (Hfixed p Hp).
Qed.

Lemma reachable_allowed (allowed : Props.t → Prop) (props : Props.t) (state : State.t) :
  reachable allowed props state → allowed props.
Proof. induction 1; auto. Qed.

(** The table of a render in the table view, with some row to show. *)
Lemma render_table_view (props : Props.t) (state : State.t) :
  State.view state = ViewTable →
  filteredRowsOf props state ≠ [] →
  renderedTable (render props state) = Some (renderTable props state).
Proof.
  intros Hview Hne%filteredRowsOf_nonempty.
  rewrite render_fragment by by left. by rewrite Hview.
Qed.

(** The footer buttons are offered as the footer shows them. *)
Lemma offered_footer (r : Rendered) (tv : TableView) (a : Action) :
  renderedTable r = Some tv →
  match a, footer tv with
  | ClickShowMore, ShowMoreButton _ => True
  | ClickShowLess, ShowLessButton => True
  | _, _ => False
  end →
  offered r a = true.
Proof.
  intros Hr. unfold offered. rewrite Hr. simpl.
  by destruct a, (footer tv).
Qed.

Lemma renderTable_footer (props : Props.t) (state : State.t) :
  footer (renderTable props state)
  = tableFooter (filteredRowsOf props state) (State.displayedCount state)
                (displayedByDefault props).
Proof. reflexivity. Qed.

Lemma renderTable_body_length (props : Props.t) (state : State.t) :
  filteredRowsOf props state ≠ [] →
  0 ≤ State.displayedCount state →
  Z.of_nat (length (tbody (renderTable props state)))
  = Z.min (State.displayedCount state) (Z.of_nat (length (filteredRowsOf props state))).
Proof.
  intros Hne Hn. unfold renderTable. simpl.
  rewrite tableBody_length by done. by apply slice0_length.
Qed.

End displayedCount_facts.

(** The scenario of "show more" then "show less" from the initial state,
    for any default that is a count below the number of filtered rows. *)
Lemma show_more_less_scenario `{MetadataImports} (props : Props.t) (d : Z) :
  default 100 (Props.displayedByDefault props) = d →
  0 ≤ d →
  d < Z.of_nat (length (filteredRowsOf props (initialState props))) →
  Z.of_nat (length (filteredRowsOf props (initialState props))) ≤ JS.MAX_ARRAY_LENGTH →
  renderedTable (render props (initialState props))
  = Some (renderTable props (initialState props))
  ∧ Z.of_nat (length (tbody (renderTable props (initialState props)))) = d
  ∧ footer (renderTable props (initialState props))
    = ShowMoreButton (Z.of_nat (length (filteredRowsOf props (initialState props))) - d)
  ∧ offered (render props (initialState props)) ClickShowMore = true
  ∧ renderedTable (render props (handle props (initialState props) ClickShowMore))
    = Some (renderTable props (handle props (initialState props) ClickShowMore))
  ∧ length (tbody (renderTable props (handle props (initialState props) ClickShowMore)))
    = length (filteredRowsOf props (initialState props))
  ∧ footer (renderTable props (handle props (initialState props) ClickShowMore))
    = ShowLessButton
  ∧ offered (render props (handle props (initialState props) ClickShowMore))
            ClickShowLess = true
  ∧ handle props (handle props (initialState props) ClickShowMore) ClickShowLess
    = initialState props.
Proof.
  intros Hshown Hd Hlt Hmax.
  set (s0 := initialState props) in *.
  set (s1 := handle props s0 ClickShowMore).
  assert (filteredRowsOf props s1 = filteredRowsOf props s0) as Hsame by done.
  assert (filteredRowsOf props s0 ≠ []) as Hne
    by (intros Hnil; rewrite Hnil in Hlt; simpl in Hlt; lia).
  assert (State.displayedCount s0 = d) as Hc0 by done.
  assert (State.displayedCount s1 = JS.MAX_SAFE_INTEGER) as Hc1 by done.
  assert (displayedByDefault props = d) as Hshown' by done.
  assert (footer (renderTable props s0)
          = ShowMoreButton (Z.of_nat (length (filteredRowsOf props s0)) - d)) as Hf0.
  { rewrite renderTable_footer, Hc0. by apply tableFooter_more. }
  assert (footer (renderTable props s1) = ShowLessButton) as Hf1.
  { rewrite renderTable_footer, Hsame, Hc1, Hshown'.
    apply tableFooter_less; unfold JS.MAX_SAFE_INTEGER, JS.MAX_ARRAY_LENGTH in *; lia. }
  assert (renderedTable (render props s0) = Some (renderTable props s0)) as Hr0
    by by apply render_table_view.
  assert (renderedTable (render props s1) = Some (renderTable props s1)) as Hr1
    by (apply render_table_view; [done | by rewrite Hsame]).
  split; [exact Hr0 |]. split.
  { rewrite renderTable_body_length, Hc0 by (done || lia). lia. }
  split; [exact Hf0 |]. split.
  { apply (offered_footer _ _ _ Hr0). by rewrite Hf0. }
  split; [exact Hr1 |]. split.
  { apply Nat2Z.inj.
    rewrite renderTable_body_length, Hc1, Hsame;
      [| by rewrite Hsame | rewrite Hc1; unfold JS.MAX_SAFE_INTEGER; lia].
    unfold JS.MAX_SAFE_INTEGER, JS.MAX_ARRAY_LENGTH in *. lia. }
  split; [exact Hf1 |]. split.
  { apply (offered_footer _ _ _ Hr1). by rewrite Hf1. }
  subst s1 s0. unfold handle, initialState, displayedByDefault. simpl. done.
Qed.

(** ** Claims about the displayed count *)

(** C8. [displayedCount] starts at the default the caller supplies
    ([displayedByDefault], 100 when the caller gives none); "show more"
    sets it to the sentinel and "show less" back to the caller's default,
    in one step each, and no other action changes it. Over a whole life of
    the component, re-renders with new props included, it only ever holds
    the sentinel or the default of props the component has had; it holds
    no third value as long as the caller keeps to one default. For any
    default d that is a count below the number of filtered rows, the
    table first shows d rows and offers the rest as "more"; after "show
    more" it shows every row with nothing more and offers "show less";
    after "show less" it is in the initial state again. With 150 filtered
    rows and a default of 100 the sequence is 100 rows and 50 more, then
    150 rows and nothing more, then 100 rows and 50 more again. *)
Theorem displayedCount_show_more_less `{MetadataImports} (props : Props.t) :
  State.displayedCount (initialState props)
  = default 100 (Props.displayedByDefault props)
  ∧ (∀ state a,
       State.displayedCount (handle props state a)
       = match a with
         | ClickShowMore => JS.MAX_SAFE_INTEGER
         | ClickShowLess => default 100 (Props.displayedByDefault props)
         | _ => State.displayedCount state
         end)
  ∧ (∀ (allowed : Props.t → Prop) p state,
       reachable allowed p state →
       State.displayedCount state = JS.MAX_SAFE_INTEGER
       ∨ ∃ p', allowed p'
               ∧ State.displayedCount state = default 100 (Props.displayedByDefault p'))
  ∧ (∀ (allowed : Props.t → Prop) d p state,
       (∀ p', allowed p' → default 100 (Props.displayedByDefault p') = d) →
       reachable allowed p state →
       State.displayedCount state = d
       ∨ State.displayedCount state = JS.MAX_SAFE_INTEGER)
  ∧ (∀ d,
       default 100 (Props.displayedByDefault props) = d →
       0 ≤ d →
       d < Z.of_nat (length (filteredRowsOf props (initialState props))) →
       Z.of_nat (length (filteredRowsOf props (initialState props)))
       ≤ JS.MAX_ARRAY_LENGTH →
       renderedTable (render props (initialState props))
       = Some (renderTable props (initialState props))
       ∧ Z.of_nat (length (tbody (renderTable props (initialState props)))) = d
       ∧ footer (renderTable props (initialState props))
         = ShowMoreButton
             (Z.of_nat (length (filteredRowsOf props (initialState props))) - d)
       ∧ offered (render props (initialState props)) ClickShowMore = true
       ∧ renderedTable (render props (handle props (initialState props) ClickShowMore))
         = Some (renderTable props (handle props (initialState props) ClickShowMore))
       ∧ length (tbody (renderTable props
                          (handle props (initialState props) ClickShowMore)))
         = length (filteredRowsOf props (initialState props))
       ∧ footer (renderTable props (handle props (initialState props) ClickShowMore))
         = ShowLessButton
       ∧ offered (render props (handle props (initialState props) ClickShowMore))
                 ClickShowLess = true
       ∧ handle props (handle props (initialState props) ClickShowMore) ClickShowLess
         = initialState props)
  ∧ (default 100 (Props.displayedByDefault props) = 100 →
     length (filteredRowsOf props (initialState props)) = 150%nat →
     renderedTable (render props (initialState props))
     = Some (renderTable props (initialState props))
     ∧ length (tbody (renderTable props (initialState props))) = 100%nat
     ∧ footer (renderTable props (initialState props)) = ShowMoreButton 50
     ∧ offered (render props (initialState props)) ClickShowMore = true
     ∧ renderedTable (render props (handle props (initialState props) ClickShowMore))
       = Some (renderTable props (handle props (initialState props) ClickShowMore))
     ∧ length (tbody (renderTable props (handle props (initialState props) ClickShowMore)))
       = 150%nat
     ∧ footer (renderTable props (handle props (initialState props) ClickShowMore))
       = ShowLessButton
     ∧ remainder (footer (renderTable props
                            (handle props (initialState props) ClickShowMore))) = 0
     ∧ offered (render props (handle props (initialState props) ClickShowMore))
               ClickShowLess = true
     ∧ handle props (handle props (initialState props) ClickShowMore) ClickShowLess
       = initialState props).
Proof.
  split; [done |]. split; [apply handle_displayedCount |].
  split; [apply reachable_displayedCount |].
  split; [apply reachable_displayedCount_fixed |].
  split; [apply show_more_less_scenario |].
  intros Hshown Hlen.
  destruct (show_more_less_scenario props 100 Hshown) as
    (Hr0 & Hb0 & Hf0 & Ho0 & Hr1 & Hb1 & Hf1 & Ho1 & Hback);
    [lia | rewrite Hlen; lia | rewrite Hlen; unfold JS.MAX_ARRAY_LENGTH; lia |].
  rewrite Hlen in Hf0, Hb1.
  split; [exact Hr0 |]. split; [lia |]. split; [exact Hf0 |]. split; [exact Ho0 |].
  split; [exact Hr1 |]. split; [exact Hb1 |]. split; [exact Hf1 |].
  split; [by rewrite Hf1 |]. split; [exact Ho1 | exact Hback].
Qed.

Lemma displayedCount_show_more_less_witness :
  (default 100 (Props.displayedByDefault manyProps) = 100
   ∧ length (filteredRowsOf (H := sampleImports) manyProps (initialState manyProps))
     = 150%nat
   ∧ length (tbody (renderTable (H := sampleImports) manyProps (initialState manyProps)))
     = 100%nat
   ∧ footer (renderTable (H := sampleImports) manyProps (initialState manyProps))
     = ShowMoreButton 50
   ∧ length (tbody (renderTable (H := sampleImports) manyProps
                      (handle manyProps (initialState manyProps) ClickShowMore)))
     = 150%nat
   ∧ footer (renderTable (H := sampleImports) manyProps
               (handle manyProps (initialState manyProps) ClickShowMore))
     = ShowLessButton
   ∧ handle manyProps (handle manyProps (initialState manyProps) ClickShowMore)
            ClickShowLess
     = initialState manyProps)
  ∧ (Props.displayedByDefault plainProps = Some 2
     ∧ State.displayedCount (initialState plainProps) = 2
     ∧ Z.of_nat (length (tbody (renderTable (H := sampleImports) plainProps
                                  (initialState plainProps)))) = 2
     ∧ footer (renderTable (H := sampleImports) plainProps (initialState plainProps))
       = ShowMoreButton 2
     ∧ length (tbody (renderTable (H := sampleImports) plainProps
                        (handle plainProps (initialState plainProps) ClickShowMore)))
       = 4%nat
     ∧ State.displayedCount
         (handle plainProps (handle plainProps (initialState plainProps) ClickShowMore)
                 ClickShowLess) = 2).
Proof.
  split.
  - assert (default 100 (Props.displayedByDefault manyProps) = 100) as Hshown
      by reflexivity.
    assert (length (filteredRowsOf (H := sampleImports) manyProps (initialState manyProps))
            = 150%nat) as Hlen by (vm_compute; reflexivity).
    destruct (displayedCount_show_more_less (H := sampleImports) manyProps)
      as (_ & _ & _ & _ & _ & Hscenario).
    destruct (Hscenario Hshown Hlen)
      as (_ & Hb0 & Hf0 & _ & _ & Hb1 & Hf1 & _ & _ & Hback).
    repeat split; assumption.
  - destruct (displayedCount_show_more_less (H := sampleImports) plainProps)
      as (Hinit & Hhandle & _ & _ & Hscenario & _).
    assert (Z.of_nat (length (filteredRowsOf (H := sampleImports) plainProps
                                (initialState plainProps))) = 4) as Hlen
      by (vm_compute; reflexivity).
    destruct (Hscenario 2 eq_refl) as (_ & Hb0 & Hf0 & _ & _ & Hb1 & _ & _ & _);
      [lia | rewrite Hlen; lia | rewrite Hlen; unfold JS.MAX_ARRAY_LENGTH; lia |].
    rewrite Hlen in Hf0.
    split; [reflexivity |]. split; [exact Hinit |]. split; [exact Hb0 |].
    split; [exact Hf0 |]. split; [rewrite Hb1; vm_compute; reflexivity |].
    rewrite Hhandle. reflexivity.
Defined.

(** * Further properties of the merge *)

Section uniqBy_more.
Context {A K : Type} `{EqDecision K} (f : A → K).

(** The keys after the pass are the keys before it that were not seen. *)
Lemma baseUniq_keys (array : list A) (seen : list K) (k : K) :
  k ∈ map f (JS.baseUniq f seen [] array) ↔ k ∈ map f array ∧ k ∉ seen.
Proof.
  revert seen. induction array as [|y rest IH]; intros seen.
  - simpl. rewrite elem_of_nil. tauto.
  - rewrite baseUniq_cons. case_bool_decide as Hy; simpl.
    + rewrite IH, elem_of_cons. split; [tauto |].
      intros [[-> | Hk] Hseen]; [done | tauto].
    + rewrite !elem_of_cons, IH, elem_of_app, list_elem_of_singleton.
      destruct (decide (k = f y)) as [-> | Hne]; tauto.
Qed.

(** A pass over values of distinct, unseen keys drops nothing. *)
Lemma baseUniq_distinct (array : list A) (seen : list K) :
  NoDup (map f array) → (∀ x, x ∈ array → f x ∉ seen) →
  JS.baseUniq f seen [] array = array.
Proof.
  revert seen. induction array as [|y rest IH]; intros seen Hnd Hseen; [done |].
  simpl in Hnd. apply NoDup_cons in Hnd as [Hy Hnd].
  rewrite baseUniq_cons, bool_decide_eq_false_2 by (apply Hseen; left).
  f_equal. apply IH; [done |].
  intros x Hx. rewrite elem_of_app, list_elem_of_singleton.
  intros [Hin | Heq].
  - by apply (Hseen x); [right |].
  - apply Hy. rewrite <- Heq. apply list_elem_of_fmap. by exists x.
Qed.

(** A pass over two arrays in a row is a pass over the first, then one
    over the second that has seen the keys kept from the first. *)
Lemma baseUniq_app (l k : list A) (seen : list K) :
  JS.baseUniq f seen [] (l ++ k)
  = JS.baseUniq f seen [] l
    ++ JS.baseUniq f (seen ++ map f (JS.baseUniq f seen [] l)) [] k.
Proof.
  revert seen. induction l as [|y l IH]; intros seen.
  - simpl. by rewrite app_nil_r.
  - rewrite <- app_comm_cons, !baseUniq_cons.
    case_bool_decide as Hy; [apply IH |].
    rewrite IH. simpl. by rewrite <- app_assoc.
Qed.

End uniqBy_more.

Section list_more.
Context {A : Type}.

Lemma sublist_same_length (l k : list A) :
  l `sublist_of` k → length l = length k → l = k.
Proof.
  induction 1 as [|x l k _ IH|x l k Hsub _]; simpl; intros Hlen.
  - done.
  - f_equal. apply IH. lia.
  - apply sublist_length in Hsub. lia.
Qed.

Lemma find_map_first {B : Type} (g : B → A) (p : A → bool) (l : list B) :
  List.find p (map g l) = g <$> List.find (fun b => p (g b)) l.
Proof.
  induction l as [|b l IH]; simpl; [done |]. by destruct (p (g b)).
Qed.

Lemma filter_implied (p q : A → bool) (l : list A) :
  (∀ x, p x = true → q x = true) →
  List.filter p (List.filter q l) = List.filter p l.
Proof.
  intros Himp. induction l as [|x l IH]; simpl; [done |].
  destruct (q x) eqn:Hq; simpl.
  - by rewrite IH.
  - destruct (p x) eqn:Hp; [| done]. apply Himp in Hp. congruence.
Qed.

End list_more.

Section merge_more.

Lemma concatenatedRows_entries event observations defs ts :
  map entry (concatenatedRows event observations defs ts)
  = inputEntries event observations defs.
Proof.
  unfold concatenatedRows, inputEntries.
  by rewrite !map_app, observationRows_entries, eventRows_entries,
    definitionRows_entries.
Qed.

Lemma concatenatedRows_labels event observations defs ts :
  map rowLabel (concatenatedRows event observations defs ts)
  = map label (inputEntries event observations defs).
Proof.
  rewrite <- (concatenatedRows_entries event observations defs ts).
  by rewrite map_map.
Qed.

Lemma firstEntryWithLabel_absent (l : string) (entries : list MetadataEntry) :
  l ∉ map label entries → firstEntryWithLabel l entries = None.
Proof.
  induction entries as [|e es IH]; simpl; [done |].
  rewrite not_elem_of_cons. intros [Hne Hes].
  destruct (String.eqb_spec (label e) l); [congruence | by apply IH].
Qed.

(** The three passes of the merge, one per tier. *)
Lemma allRows_by_tier event observations defs ts :
  ∃ seenO seenE,
    allRows event observations defs ts
    = JS.baseUniq rowLabel [] [] (observationRows observations)
      ++ JS.baseUniq rowLabel seenO [] (eventRows event)
      ++ JS.baseUniq rowLabel seenE [] (definitionRows defs ts)
    ∧ allRows event observations None ts
      = JS.baseUniq rowLabel [] [] (observationRows observations)
        ++ JS.baseUniq rowLabel seenO [] (eventRows event)
    ∧ allRows None observations None ts
      = JS.baseUniq rowLabel [] [] (observationRows observations).
Proof.
  eexists _, _. rewrite !allRows_unfold. unfold concatenatedRows.
  split; [| split].
  - rewrite !baseUniq_app. reflexivity.
  - simpl. rewrite !app_nil_r. rewrite baseUniq_app. reflexivity.
  - simpl. by rewrite !app_nil_r.
Qed.

Lemma tierRows_app (t : IconName) (l k : list Row) :
  tierRows t (l ++ k) = tierRows t l ++ tierRows t k.
Proof. apply List.filter_app. Qed.

Lemma baseUniq_tier (tier : IconName) (seen : list string) (rows : list Row) :
  (∀ r, r ∈ rows → icon r = tier) →
  ∀ t, tierRows t (JS.baseUniq rowLabel seen [] rows)
       = if bool_decide (tier = t) then JS.baseUniq rowLabel seen [] rows else [].
Proof.
  intros Hicon t. unfold tierRows.
  assert (∀ r, r ∈ JS.baseUniq rowLabel seen [] rows → icon r = tier) as Hkept.
  { intros r Hr. apply Hicon. eapply elem_of_sublist; [exact Hr |].
    apply baseUniq_sublist. }
  case_bool_decide as Ht.
  - apply filter_all. intros r Hr. apply bool_decide_eq_true. by rewrite Hkept.
  - apply filter_none. intros r Hr. apply bool_decide_eq_false. by rewrite Hkept.
Qed.

Lemma tierRows_observationRows t seen observations :
  tierRows t (JS.baseUniq rowLabel seen [] (observationRows observations))
  = if bool_decide (observation = t)
    then JS.baseUniq rowLabel seen [] (observationRows observations) else [].
Proof. apply baseUniq_tier. by intros r [? _]%observationRows_source. Qed.

Lemma tierRows_eventRows t seen event :
  tierRows t (JS.baseUniq rowLabel seen [] (eventRows event))
  = if bool_decide (materialization = t)
    then JS.baseUniq rowLabel seen [] (eventRows event) else [].
Proof. apply baseUniq_tier. by intros r [? _]%eventRows_icon. Qed.

Lemma tierRows_definitionRows t seen defs ts :
  tierRows t (JS.baseUniq rowLabel seen [] (definitionRows defs ts))
  = if bool_decide (asset = t)
    then JS.baseUniq rowLabel seen [] (definitionRows defs ts) else [].
Proof. apply baseUniq_tier. by intros r [? _]%definitionRows_icon. Qed.

End merge_more.

(** X1. The merge neither loses nor invents a label: a label is borne by
    a merged row exactly when it is borne by an entry of the event, of an
    observation or of the definition metadata; and every merged entry is
    one of those entries. *)
Theorem allRows_labels_preserved event observations definitionMetadata ts :
  (∀ l : string,
     l ∈ map rowLabel (allRows event observations definitionMetadata ts)
     ↔ l ∈ map label (inputEntries event observations definitionMetadata))
  ∧ map entry (allRows event observations definitionMetadata ts)
    `sublist_of` inputEntries event observations definitionMetadata.
Proof.
  split.
  - intros l. rewrite allRows_unfold, baseUniq_keys, concatenatedRows_labels.
    rewrite elem_of_nil. tauto.
  - rewrite <- (concatenatedRows_entries event observations definitionMetadata ts).
    apply fmap_sublist. rewrite allRows_unfold. apply baseUniq_sublist.
Qed.

(** X2. The merge drops a row only for a repeated label: the labels of the
    input entries are pairwise distinct exactly when the merged rows are
    all the tagged input rows, and exactly when there are as many merged
    rows as input entries. *)
Theorem allRows_complete_iff_distinct event observations definitionMetadata ts :
  (NoDup (map label (inputEntries event observations definitionMetadata))
   ↔ allRows event observations definitionMetadata ts
     = concatenatedRows event observations definitionMetadata ts)
  ∧ (NoDup (map label (inputEntries event observations definitionMetadata))
     ↔ length (allRows event observations definitionMetadata ts)
       = totalInputRows event observations definitionMetadata).
Proof.
  rewrite <- (concatenatedRows_labels event observations definitionMetadata ts).
  rewrite <- (concatenatedRows_length event observations definitionMetadata ts).
  rewrite allRows_unfold.
  assert (JS.baseUniq rowLabel [] []
            (concatenatedRows event observations definitionMetadata ts)
          = concatenatedRows event observations definitionMetadata ts
          → NoDup (map rowLabel
                     (concatenatedRows event observations definitionMetadata ts)))
    as Hback.
  { intros Heq. rewrite <- Heq. apply baseUniq_NoDup. }
  split; split.
  - intros Hnd. apply baseUniq_distinct; [done |]. intros x _. apply not_elem_of_nil.
  - exact Hback.
  - intros Hnd. f_equal. apply baseUniq_distinct; [done |].
    intros x _. apply not_elem_of_nil.
  - intros Hlen. apply Hback, sublist_same_length; [apply baseUniq_sublist | done].
Qed.

Lemma allRows_complete_iff_distinct_witness :
  NoDup (map label (inputEntries None scenarioObservations scenarioDefinition))
  ∧ allRows None scenarioObservations scenarioDefinition None
    = concatenatedRows None scenarioObservations scenarioDefinition None
  ∧ length (allRows None scenarioObservations scenarioDefinition None)
    = totalInputRows None scenarioObservations scenarioDefinition.
Proof.
  assert (NoDup (map label (inputEntries None scenarioObservations scenarioDefinition)))
    as Hnd by (apply (bool_decide_unpack _); vm_compute; exact I).
  destruct (allRows_complete_iff_distinct None scenarioObservations scenarioDefinition None)
    as [Hrows Hlen].
  split; [exact Hnd |]. split; [exact (proj1 Hrows Hnd) | exact (proj1 Hlen Hnd)].
Defined.

(** X3. The merged rows are grouped by tier in priority order:
    observation rows, then event rows, then definition rows. The
    observation rows are what the observations alone merge to, and the
    observation and event rows together are what the merge gives without
    definition metadata: an event only appends to the observations' rows,
    and definition metadata only appends to both. *)
Theorem allRows_grouped_by_tier event observations definitionMetadata ts :
  allRows event observations definitionMetadata ts
  = tierRows observation (allRows event observations definitionMetadata ts)
    ++ tierRows materialization (allRows event observations definitionMetadata ts)
    ++ tierRows asset (allRows event observations definitionMetadata ts)
  ∧ tierRows observation (allRows event observations definitionMetadata ts)
    = allRows None observations None ts
  ∧ tierRows observation (allRows event observations definitionMetadata ts)
    ++ tierRows materialization (allRows event observations definitionMetadata ts)
    = allRows event observations None ts.
Proof.
  destruct (allRows_by_tier event observations definitionMetadata ts)
    as (seenO & seenE & -> & -> & ->).
  rewrite !tierRows_app.
  rewrite !tierRows_observationRows, !tierRows_eventRows, !tierRows_definitionRows.
  simpl. by rewrite !app_nil_r.
Qed.

Section observation_order.

Lemma firstWithLabel_allRows l event observations defs ts :
  firstWithLabel l (allRows event observations defs ts)
  = firstWithLabel l (concatenatedRows event observations defs ts).
Proof.
  unfold firstWithLabel. rewrite allRows_unfold.
  apply (baseUniq_find rowLabel _ l).
  - intros r. apply String.eqb_eq.
  - apply not_elem_of_nil.
Qed.

Lemma firstWithLabel_app l (rows rows' : list Row) :
  firstWithLabel l (rows ++ rows')
  = match firstWithLabel l rows with
    | Some r => Some r
    | None => firstWithLabel l rows'
    end.
Proof. apply find_app_first. Qed.

Lemma observationRows_app (os os' : list TableEvent.t) :
  observationRows (Some (os ++ os'))
  = observationRows (Some os) ++ observationRows (Some os').
Proof. apply flat_map_app. Qed.

Lemma firstWithLabel_one_observation l (o : TableEvent.t) :
  firstWithLabel l (observationRows (Some [o]))
  = (fun e => {| icon := observation;
                 timestamp := TableEvent.timestamp o;
                 runId := optionalRunId (TableEvent.runId o);
                 entry := e |})
    <$> firstEntryWithLabel l (TableEvent.metadataEntries o).
Proof.
  unfold observationRows, firstWithLabel. simpl. rewrite app_nil_r.
  by rewrite find_map_first.
Qed.

Lemma firstWithLabel_observations_absent l (os : list TableEvent.t) :
  Forall (fun o => l ∉ map label (TableEvent.metadataEntries o)) os →
  firstWithLabel l (observationRows (Some os)) = None.
Proof.
  induction 1 as [|o os Ho _ IH]; [done |].
  change (o :: os) with ([o] ++ os).
  rewrite observationRows_app, firstWithLabel_app, firstWithLabel_one_observation.
  by rewrite (firstEntryWithLabel_absent _ _ Ho).
Qed.

End observation_order.

(** X4. Among the observations, the first one that lists a label supplies
    the merged row of that label, with its own timestamp and run
    identifier and with the first of its entries bearing the label;
    neither a later observation nor the event nor the definition can
    displace it. *)
Theorem allRows_first_observation_wins event (before : list TableEvent.t)
    (o : TableEvent.t) (after : list TableEvent.t) definitionMetadata ts
    (l : string) (e : MetadataEntry) :
  Forall (fun o' => l ∉ map label (TableEvent.metadataEntries o')) before →
  firstEntryWithLabel l (TableEvent.metadataEntries o) = Some e →
  firstWithLabel l (allRows event (Some (before ++ o :: after)) definitionMetadata ts)
  = Some {| icon := observation;
            timestamp := TableEvent.timestamp o;
            runId := optionalRunId (TableEvent.runId o);
            entry := e |}.
Proof.
  intros Hbefore Hentry.
  rewrite firstWithLabel_allRows. unfold concatenatedRows.
  change (o :: after) with ([o] ++ after).
  rewrite !observationRows_app, <- !app_assoc, !firstWithLabel_app.
  rewrite (firstWithLabel_observations_absent _ _ Hbefore).
  by rewrite firstWithLabel_one_observation, Hentry.
Qed.

Lemma allRows_first_observation_wins_witness :
  firstWithLabel "b"
    (allRows scenarioEvent
       (Some ([sampleEvent ["x"] None]
              ++ sampleEvent ["b"; "c"] (Some "run-o") :: [sampleEvent ["b"] (Some "run-p")]))
       scenarioDefinition None)
  = Some (scenarioObservedRow "b").
Proof.
  apply (allRows_first_observation_wins scenarioEvent [sampleEvent ["x"] None]
           (sampleEvent ["b"; "c"] (Some "run-o")) [sampleEvent ["b"] (Some "run-p")]
           scenarioDefinition None "b" (textEntry "b")).
  - repeat constructor. simpl. rewrite elem_of_cons, elem_of_nil.
    intros [Heq | []]. discriminate.
  - reflexivity.
Defined.

(** * Further properties of the filter *)

Section string_more.

Lemma append_assoc (a b c : string) : (a +:+ b) +:+ c = a +:+ b +:+ c.
Proof.
  induction a as [|x a IH]; [done |].
  change (String x ((a +:+ b) +:+ c) = String x (a +:+ b +:+ c)). by f_equal.
Qed.

Lemma toLowerCase_app (a b : string) :
  JS.toLowerCase (a +:+ b) = JS.toLowerCase a +:+ JS.toLowerCase b.
Proof.
  induction a as [|x a IH]; [done |].
  change (String (JS.lowerUnit x) (JS.toLowerCase (a +:+ b))
          = String (JS.lowerUnit x) (JS.toLowerCase a +:+ JS.toLowerCase b)).
  by f_equal.
Qed.

Lemma lowerUnit_idempotent (c : ascii) : JS.lowerUnit (JS.lowerUnit c) = JS.lowerUnit c.
Proof. by destruct c as [[] [] [] [] [] [] [] []]. Qed.

Lemma toLowerCase_idempotent (s : string) :
  JS.toLowerCase (JS.toLowerCase s) = JS.toLowerCase s.
Proof.
  induction s as [|c s IH]; simpl; [done |]. by rewrite lowerUnit_idempotent, IH.
Qed.

Lemma truthy_toLowerCase (s : string) :
  JS.truthy_string (JS.toLowerCase s) = JS.truthy_string s.
Proof. by destruct s. Qed.

Lemma containsIgnoringCase_empty (l : string) : containsIgnoringCase l "".
Proof. by exists "", (JS.toLowerCase l). Qed.

(** What contains a text contains every part of it. *)
Lemma containsIgnoringCase_part (l before text after : string) :
  containsIgnoringCase l (before +:+ text +:+ after) → containsIgnoringCase l text.
Proof.
  intros (x & y & Hl). rewrite !toLowerCase_app in Hl.
  exists (x +:+ JS.toLowerCase before), (JS.toLowerCase after +:+ y).
  by rewrite Hl, !append_assoc.
Qed.

End string_more.

Section filter_more.
Context `{MetadataImports}.

Lemma matchesFilter_iff (text : string) (row : Row) :
  matchesFilter text row = true ↔ containsIgnoringCase (rowLabel row) text.
Proof.
  split; [apply matchesFilter_contains |].
  unfold matchesFilter, containsIgnoringCase. destruct text as [|c text]; [done |].
  intros Hc. simpl negb. rewrite orb_false_l. by apply includes_spec.
Qed.

Lemma isShown_iff (hide : option bool) (row : Row) :
  isShown hide row = true
  ↔ (rowLabel row ∉ HIDDEN_METADATA_ENTRY_LABELS)
    ∧ isCanonicalColumnSchemaEntry (entry row) && JS.truthy_flag hide = false
    ∧ isCanonicalColumnLineageEntry (entry row) = false.
Proof.
  unfold isShown. rewrite !andb_true_iff, !negb_true_iff, bool_decide_eq_false. tauto.
Qed.

(** Setting [hideTableSchema] can only hide more. *)
Lemma isShown_hide (hide : option bool) (row : Row) :
  isShown (Some true) row = true → isShown hide row = true.
Proof.
  rewrite !isShown_iff. simpl. rewrite andb_true_r.
  intros (? & -> & ?). done.
Qed.

Lemma isShown_Some_true (row : Row) :
  isShown (Some true) row
  = negb (isCanonicalColumnSchemaEntry (entry row)) && isShown None row.
Proof.
  unfold isShown. simpl. rewrite andb_true_r, andb_false_r. simpl.
  destruct (bool_decide _), (isCanonicalColumnSchemaEntry _),
    (isCanonicalColumnLineageEntry _); done.
Qed.

Lemma isShown_falsy (hide : option bool) (row : Row) :
  JS.truthy_flag hide = false → isShown hide row = isShown None row.
Proof. intros Hf. unfold isShown. by rewrite Hf. Qed.

End filter_more.

(** X5. The filter removes nothing but what it must: a row is in
    [filteredRows] exactly when it is an input row whose label contains the
    filter text, the case of letters disregarded, whose label is not a
    hidden one, which is no column-lineage entry, and which is no
    column-schema entry while [hideTableSchema] is set. *)
Theorem filteredRows_exactly `{MetadataImports}
    (rows : list Row) (text : string) (hide : option bool) (r : Row) :
  r ∈ filteredRows rows text hide
  ↔ r ∈ rows
    ∧ containsIgnoringCase (rowLabel r) text
    ∧ (rowLabel r ∉ HIDDEN_METADATA_ENTRY_LABELS)
    ∧ isCanonicalColumnSchemaEntry (entry r) && JS.truthy_flag hide = false
    ∧ isCanonicalColumnLineageEntry (entry r) = false.
Proof. rewrite elem_of_filteredRows, matchesFilter_iff, isShown_iff. tauto. Qed.

Lemma filteredRows_exactly_witness :
  scenarioObservedRow "Row_Count"
    ∈ filteredRows (H := sampleImports)
        [scenarioObservedRow "size"; scenarioObservedRow "Row_Count"] "COUNT" (Some true).
Proof.
  apply (filteredRows_exactly (H := sampleImports)).
  split; [apply list_elem_of_further, list_elem_of_here |].
  split; [by exists "row_", "" |].
  split; [| by split].
  apply (bool_decide_unpack _). vm_compute. exact I.
Defined.

(** X6. Typing more text can only narrow the table: the rows kept for a
    text that contains [text] are a subsequence of the rows kept for
    [text], and they are what filtering the latter by the longer text
    gives. *)
Theorem filteredRows_narrowing `{MetadataImports}
    (rows : list Row) (before text after : string) (hide : option bool) :
  filteredRows rows (before +:+ text +:+ after) hide
  `sublist_of` filteredRows rows text hide
  ∧ filteredRows (filteredRows rows text hide) (before +:+ text +:+ after) hide
    = filteredRows rows (before +:+ text +:+ after) hide.
Proof.
  assert (∀ r, matchesFilter (before +:+ text +:+ after) r = true
               → matchesFilter text r = true) as Himp.
  { intros r. rewrite !matchesFilter_iff. apply containsIgnoringCase_part. }
  assert (filteredRows (filteredRows rows text hide) (before +:+ text +:+ after) hide
          = filteredRows rows (before +:+ text +:+ after) hide) as Heq.
  { unfold filteredRows.
    rewrite (filter_swap (matchesFilter (before +:+ text +:+ after)) (isShown hide)).
    by rewrite filter_idempotent, (filter_implied _ _ _ Himp). }
  split; [| exact Heq]. rewrite <- Heq. apply filteredRows_sublist.
Qed.

(** X7. The case of the letters of the filter text is immaterial: two
    texts with the same lower-case form keep the same rows. *)
Theorem filteredRows_text_case `{MetadataImports}
    (rows : list Row) (text text' : string) (hide : option bool) :
  JS.toLowerCase text = JS.toLowerCase text' →
  filteredRows rows text hide = filteredRows rows text' hide.
Proof.
  intros Hlow. unfold filteredRows. f_equal. apply filter_ext. intros r.
  unfold matchesFilter. rewrite Hlow. f_equal. f_equal.
  by rewrite <- (truthy_toLowerCase text), Hlow, truthy_toLowerCase.
Qed.

Lemma filteredRows_text_case_witness :
  filteredRows (H := sampleImports)
    [scenarioObservedRow "size"; scenarioObservedRow "Row_Count"] "Count" None
  = filteredRows (H := sampleImports)
      [scenarioObservedRow "size"; scenarioObservedRow "Row_Count"] "cOUNT" None.
Proof. apply (filteredRows_text_case (H := sampleImports)). reflexivity. Defined.

(** X8. [hideTableSchema] hides the column-schema entries and nothing
    else: with the flag set, the filter keeps the rows it keeps under any
    other value of the flag less the column-schema entries; [false] and an
    absent flag keep the same rows. *)
Theorem filteredRows_hideTableSchema `{MetadataImports}
    (rows : list Row) (text : string) (hide : option bool) :
  filteredRows rows text (Some true)
  = List.filter (fun r => negb (isCanonicalColumnSchemaEntry (entry r)))
                (filteredRows rows text hide)
  ∧ filteredRows rows text (Some false) = filteredRows rows text None.
Proof.
  unfold filteredRows. split.
  - rewrite <- (filter_implied (isShown (Some true)) (isShown hide))
      by apply isShown_hide.
    apply filter_ext_in. intros r [_ Hr]%List.filter_In.
    rewrite isShown_Some_true.
    destruct (isCanonicalColumnSchemaEntry (entry r)) eqn:Hs; simpl; [done |].
    unfold isShown in *. rewrite Hs in *. exact Hr.
  - apply filter_ext. intros r. by apply isShown_falsy.
Qed.

(** * Further properties of the rendered table *)

Section table_more.
Context `{MetadataImports}.

Lemma displayedRows_sublist (rows : list Row) (n : Z) :
  displayedRows rows n `sublist_of` rows.
Proof. unfold displayedRows, JS.slice0. apply sublist_take. Qed.

Lemma allRowsOf_NoDup (props : Props.t) : NoDup (map rowLabel (allRowsOf props)).
Proof. unfold allRowsOf. rewrite allRows_unfold. apply baseUniq_NoDup. Qed.

Lemma filteredRowsOf_sublist (props : Props.t) (state : State.t) :
  filteredRowsOf props state `sublist_of` allRowsOf props.
Proof. apply filteredRows_sublist. Qed.

(** The rows of the table body are rows of the merge, in its order. *)
Lemma displayed_sublist_allRows (props : Props.t) (state : State.t) (n : Z) :
  displayedRows (filteredRowsOf props state) n `sublist_of` allRowsOf props.
Proof.
  transitivity (filteredRowsOf props state);
    [apply displayedRows_sublist | apply filteredRowsOf_sublist].
Qed.

Lemma bodyLabels_entries (props : Props.t) (rows : list Row) :
  bodyLabels (map (fun row => EntryRow (entryCells props row)) rows) = map rowLabel rows.
Proof. induction rows as [|r rows IH]; simpl; [done | by f_equal]. Qed.

Lemma bodyLabels_tableBody (props : Props.t) (rows : list Row) (n : Z) :
  bodyLabels (tableBody props rows n) = map rowLabel (displayedRows rows n).
Proof.
  unfold tableBody, bodyLabels. rewrite omap_app.
  fold (bodyLabels (map (fun row => EntryRow (entryCells props row))
                        (displayedRows rows n))).
  rewrite bodyLabels_entries. by destruct (length rows =? 0)%nat.
Qed.

Lemma elem_of_tableBody (props : Props.t) (rows : list Row) (n : Z) (cells : EntryCells) :
  EntryRow cells ∈ tableBody props rows n →
  ∃ row, row ∈ displayedRows rows n ∧ cells = entryCells props row.
Proof.
  unfold tableBody. rewrite elem_of_app. intros [Hplace | Hentry].
  - destruct (length rows =? 0)%nat.
    + apply list_elem_of_singleton in Hplace. discriminate.
    + by apply elem_of_nil in Hplace.
  - apply list_elem_of_fmap in Hentry as (row & Heq & Hrow).
    exists row. split; [done | congruence].
Qed.

(** A render shows a table only in the table view, past the early return. *)
Lemma renderedTable_inv (props : Props.t) (state : State.t) (tv : TableView) :
  renderedTable (render props state) = Some tv →
  State.view state = ViewTable
  ∧ tv = renderTable props state
  ∧ (allRowsOf props ≠ [] ∨ truthy_node (Props.emptyState props) = false).
Proof.
  unfold render.
  destruct (truthy_node (Props.emptyState props)) eqn:Hnode;
    destruct (allRowsOf props) eqn:Hrows; simpl;
    destruct (State.view state); try discriminate;
    intros [= <-]; repeat split; auto.
Qed.

(** A render shows the filter bar only when [showFilter] is set. *)
Lemma renderedFilterBar_inv (props : Props.t) (state : State.t) (bar : FilterBar) :
  renderedFilterBar (render props state) = Some bar →
  JS.truthy_flag (Props.showFilter props) = true.
Proof.
  unfold render.
  destruct (truthy_node (Props.emptyState props) && (length (allRowsOf props) =? 0)%nat);
    simpl; [discriminate |].
  by destruct (JS.truthy_flag (Props.showFilter props)).
Qed.

Lemma offered_footer_inv (props : Props.t) (state : State.t) (a : Action) :
  offered (render props state) a = true →
  a = ClickShowMore ∨ a = ClickShowLess →
  State.view state = ViewTable
  ∧ (allRowsOf props ≠ [] ∨ truthy_node (Props.emptyState props) = false)
  ∧ match a with
    | ClickShowMore =>
        ∃ k, tableFooter (filteredRowsOf props state) (State.displayedCount state)
                         (displayedByDefault props) = ShowMoreButton k
    | _ =>
        tableFooter (filteredRowsOf props state) (State.displayedCount state)
                    (displayedByDefault props) = ShowLessButton
    end.
Proof.
  intros Hoff Ha.
  destruct (renderedTable (render props state)) as [tv|] eqn:Htv.
  - destruct (renderedTable_inv _ _ _ Htv) as (Hview & -> & Hfrag).
    split; [done |]. split; [done |].
    unfold offered in Hoff. rewrite Htv in Hoff.
    change (footer <$> Some (renderTable props state))
      with (Some (tableFooter (filteredRowsOf props state) (State.displayedCount state)
                              (displayedByDefault props))) in Hoff.
    destruct Ha as [-> | ->];
      destruct (tableFooter _ _ _) as [k| |]; try discriminate; eauto.
  - unfold offered in Hoff. rewrite Htv in Hoff.
    destruct Ha as [-> | ->]; discriminate.
Qed.

End table_more.

(** X9. The table never shows a label twice: whatever the props, the
    filter text and the displayed count, the labels of the entry rows of
    the table body are pairwise distinct, and they are labels of the
    merged rows in the order of the merge. *)
Theorem table_labels_unique `{MetadataImports} (props : Props.t) (state : State.t) :
  NoDup (bodyLabels (tbody (renderTable props state)))
  ∧ bodyLabels (tbody (renderTable props state))
    `sublist_of` map rowLabel (allRowsOf props).
Proof.
  unfold renderTable. simpl tbody. rewrite bodyLabels_tableBody.
  assert (map rowLabel (displayedRows (filteredRowsOf props state)
                                      (State.displayedCount state))
          `sublist_of` map rowLabel (allRowsOf props)) as Hsub
    by apply fmap_sublist, displayed_sublist_allRows.
  split; [| exact Hsub].
  eapply sublist_NoDup; [apply allRowsOf_NoDup | exact Hsub].
Qed.

(** ** Row keys *)

Section key_facts.

(** A hyphen-free text before a hyphen is read back unambiguously. *)
Lemma dashFree_split (s s' l l' : string) :
  dashFree s = true → dashFree s' = true →
  s +:+ "-" +:+ l = s' +:+ "-" +:+ l' → l = l'.
Proof.
  revert s'. induction s as [|c s IH]; intros [|c' s'] Hs Hs' Heq.
  - by injection Heq.
  - injection Heq as <- _. discriminate.
  - injection Heq as -> _. discriminate.
  - injection Heq as _ Heq.
    simpl in Hs, Hs'. apply andb_true_iff in Hs as [_ Hs], Hs' as [_ Hs'].
    by apply (IH s').
Qed.

Lemma rowKey_label (showNumber : Z → string) (r r' : Row) :
  dashFree (templateTimestamp showNumber (timestamp r)) = true →
  dashFree (templateTimestamp showNumber (timestamp r')) = true →
  rowKey showNumber r = rowKey showNumber r' → rowLabel r = rowLabel r'.
Proof.
  intros Hr Hr' Hkey. unfold rowKey in Hkey.
  injection Hkey as Hkey. by apply (dashFree_split _ _ _ _ Hr Hr').
Qed.

Lemma rowKey_NoDup (showNumber : Z → string) (rows : list Row) :
  Forall (fun r => dashFree (templateTimestamp showNumber (timestamp r)) = true) rows →
  NoDup (map rowLabel rows) → NoDup (map (rowKey showNumber) rows).
Proof.
  induction 1 as [|r rows Hr Hrows IH]; simpl; [constructor |].
  rewrite !NoDup_cons. intros [Hfresh Hnd]. split; [| by apply IH].
  intros (r' & Hkey & Hin)%list_elem_of_fmap. apply Hfresh.
  apply list_elem_of_fmap. exists r'. split; [| done].
  apply (rowKey_label showNumber); [done | | done].
  rewrite Forall_forall in Hrows. by apply Hrows.
Qed.

End key_facts.

(** X10. The keys of the table rows are pairwise distinct whenever no
    timestamp of a merged row prints with a hyphen (as with timestamps in
    milliseconds): whatever the filter text and the displayed count, no
    two rows of the body get the same
    [`metadata-${timestamp}-${entry.label}`]. *)
Theorem row_keys_unique `{MetadataImports} (showNumber : Z → string)
    (props : Props.t) (state : State.t) :
  Forall (fun r => dashFree (templateTimestamp showNumber (timestamp r)) = true)
         (allRowsOf props) →
  NoDup (map (rowKey showNumber)
             (displayedRows (filteredRowsOf props state) (State.displayedCount state))).
Proof.
  intros Hdash.
  pose proof (displayed_sublist_allRows props state (State.displayedCount state)) as Hsub.
  apply rowKey_NoDup.
  - rewrite Forall_forall in *. intros r Hr. apply Hdash.
    by eapply elem_of_sublist.
  - eapply sublist_NoDup; [apply allRowsOf_NoDup |]. by apply fmap_sublist.
Qed.

Lemma row_keys_unique_witness :
  map (rowKey pretty)
      (displayedRows (filteredRowsOf (H := sampleImports) (scenarioProps NodeUndefined)
                        (initialState (scenarioProps NodeUndefined)))
                     (State.displayedCount (initialState (scenarioProps NodeUndefined))))
  = ["metadata-1700000000000-b"; "metadata-1700000000000-c";
     "metadata-1700000000000-a"; "metadata-1700000000000-d"]
  ∧ NoDup (map (rowKey pretty)
             (displayedRows (filteredRowsOf (H := sampleImports) (scenarioProps NodeUndefined)
                               (initialState (scenarioProps NodeUndefined)))
                            (State.displayedCount
                               (initialState (scenarioProps NodeUndefined))))).
Proof.
  split; [reflexivity |].
  apply (row_keys_unique (H := sampleImports) pretty).
  repeat constructor.
Defined.

(** With a hyphen in a timestamp two rows of distinct labels can share a
    key. *)
Example row_keys_collision :
  rowKey pretty {| icon := observation; timestamp := Some (TimestampString "1-2");
                   runId := RunIdNull; entry := textEntry "a" |}
  = rowKey pretty {| icon := materialization; timestamp := Some (TimestampString "1");
                     runId := RunIdNull; entry := textEntry "2-a" |}.
Proof. reflexivity. Qed.

(** * Further properties of the state *)

(** X11. "Show less" undoes "Show more". Over a life of the component in
    which the caller keeps to one [displayedByDefault], re-renders
    included, and in a state whose filtered rows fit an array: when "Show
    more" is offered, taking it puts every filtered row in the table body
    and offers "Show less", and "Show less" then restores the state as it
    was; and "Show less" is offered only when the displayed count is the
    sentinel. *)
Theorem show_less_undoes_show_more `{MetadataImports} (allowed : Props.t → Prop) (d : Z)
    (props : Props.t) (state : State.t) :
  (∀ p, allowed p → default 100 (Props.displayedByDefault p) = d) →
  reachable allowed props state →
  Z.of_nat (length (filteredRowsOf props state)) ≤ JS.MAX_ARRAY_LENGTH →
  (offered (render props state) ClickShowMore = true →
   bodyLabels (tbody (renderTable props (handle props state ClickShowMore)))
   = map rowLabel (filteredRowsOf props state)
   ∧ offered (render props (handle props state ClickShowMore)) ClickShowLess = true
   ∧ handle props (handle props state ClickShowMore) ClickShowLess = state)
  ∧ (offered (render props state) ClickShowLess = true →
     State.displayedCount state = JS.MAX_SAFE_INTEGER).
Proof.
  intros Hfixed Hreach Hlen.
  pose proof (reachable_displayedCount_fixed _ _ _ _ Hfixed Hreach) as Hcount.
  assert (displayedByDefault props = d) as Hd
    by (apply Hfixed; by eapply reachable_allowed).
  unfold JS.MAX_ARRAY_LENGTH in Hlen. split.
  - intros Hoff.
    destruct (offered_footer_inv props state ClickShowMore Hoff) as (Hview & Hfrag & k & Hk);
      [by left |].
    assert (State.displayedCount state < Z.of_nat (length (filteredRowsOf props state)))
      as Hlt.
    { unfold tableFooter in Hk.
      destruct (Z.ltb_spec (State.displayedCount state)
                  (Z.of_nat (length (filteredRowsOf props state)))); [done |].
      by destruct (_ >? _). }
    assert (State.displayedCount state = d) as Hdefault.
    { destruct Hcount as [? | Hmax]; [done |].
      rewrite Hmax in Hlt. unfold JS.MAX_SAFE_INTEGER in Hlt. lia. }
    set (state' := handle props state ClickShowMore).
    assert (filteredRowsOf props state' = filteredRowsOf props state) as Hsame by done.
    split; [| split].
    + unfold renderTable. simpl tbody. rewrite bodyLabels_tableBody, Hsame.
      unfold displayedRows. rewrite slice0_all; [done |].
      simpl. unfold JS.MAX_SAFE_INTEGER. lia.
    + assert (renderedTable (render props state') = Some (renderTable props state')) as Hr.
      { rewrite render_fragment by (destruct Hfrag; auto).
        subst state'. simpl. by rewrite Hview. }
      apply (offered_footer _ _ _ Hr).
      rewrite renderTable_footer, Hsame, tableFooter_less; [done | |].
      * simpl. unfold JS.MAX_SAFE_INTEGER. lia.
      * simpl. unfold JS.MAX_SAFE_INTEGER. lia.
    + subst state'. destruct state as [text count v pv]. simpl in *.
      rewrite Hd. by subst count.
  - intros Hoff.
    destruct (offered_footer_inv props state ClickShowLess Hoff) as (Hview & Hfrag & Hk);
      [by right |].
    assert (displayedByDefault props < State.displayedCount state) as Hgt.
    { unfold tableFooter in Hk.
      destruct (_ <? _); [done |].
      destruct (Z.gtb_spec (State.displayedCount state) (displayedByDefault props));
        [lia | done]. }
    destruct Hcount; [lia | done].
Qed.

Lemma show_less_undoes_show_more_witness :
  reachable (H := sampleImports) (eq manyProps) manyProps (initialState manyProps)
  ∧ offered (render (H := sampleImports) manyProps (initialState manyProps))
            ClickShowMore = true
  ∧ length (bodyLabels (tbody (renderTable (H := sampleImports) manyProps
                                 (handle manyProps (initialState manyProps)
                                         ClickShowMore)))) = 150%nat
  ∧ handle manyProps (handle manyProps (initialState manyProps) ClickShowMore)
           ClickShowLess
    = initialState manyProps.
Proof.
  assert (reachable (H := sampleImports) (eq manyProps) manyProps (initialState manyProps))
    as Hreach by (by apply reachable_mount).
  assert (∀ p, manyProps = p → default 100 (Props.displayedByDefault p) = 100) as Hfixed
    by (by intros p <-).
  assert (Z.of_nat (length (filteredRowsOf (H := sampleImports) manyProps
                              (initialState manyProps)))
          ≤ JS.MAX_ARRAY_LENGTH) as Hlen by (vm_compute; discriminate).
  assert (offered (render (H := sampleImports) manyProps (initialState manyProps))
                  ClickShowMore = true) as Hoff by (vm_compute; reflexivity).
  destruct (show_less_undoes_show_more (H := sampleImports) (eq manyProps) 100 manyProps
              (initialState manyProps) Hfixed Hreach Hlen) as [Hmore _].
  destruct (Hmore Hoff) as (Hbody & _ & Hundo).
  split; [exact Hreach |]. split; [exact Hoff |]. split; [| exact Hundo].
  rewrite Hbody. vm_compute. reflexivity.
Defined.

(** X12. Without [showFilter] nothing can be typed or switched: over a
    life of the component in which no props set [showFilter], re-renders
    included, the filter text is empty and the table view is selected in
    every state, so the filtered rows are the merged rows less the fixed
    exclusions, and the table body shows the first [displayedCount] of
    them. *)
Theorem no_filter_bar_invariant `{MetadataImports} (allowed : Props.t → Prop)
    (props : Props.t) (state : State.t) :
  (∀ p, allowed p → JS.truthy_flag (Props.showFilter p) = false) →
  reachable allowed props state →
  State.filter state = ""
  ∧ State.view state = ViewTable
  ∧ filteredRowsOf props state
    = List.filter (isShown (Props.hideTableSchema props)) (allRowsOf props)
  ∧ bodyLabels (tbody (renderTable props state))
    = map rowLabel
          (displayedRows
             (List.filter (isShown (Props.hideTableSchema props)) (allRowsOf props))
             (State.displayedCount state)).
Proof.
  intros Hflag Hreach.
  assert (State.filter state = "" ∧ State.view state = ViewTable) as (Htext & Hview).
  { induction Hreach as [props Hp|props state a state' Hreach IH Hstep|
                         props props' state _ IH _]; [done | | exact IH].
    destruct Hstep as [state a Hoff].
    assert (renderedFilterBar (render props state) = None) as Hbar.
    { destruct (renderedFilterBar (render props state)) as [bar|] eqn:Hbar; [| done].
      apply renderedFilterBar_inv in Hbar.
      rewrite (Hflag props) in Hbar by (by eapply reachable_allowed). done. }
    unfold offered in Hoff. rewrite Hbar in Hoff.
    destruct a; try discriminate; exact IH. }
  assert (filteredRowsOf props state
          = List.filter (isShown (Props.hideTableSchema props)) (allRowsOf props))
    as Hrows.
  { unfold filteredRowsOf, filteredRows. rewrite Htext.
    f_equal. apply filter_all. intros; apply matchesFilter_empty. }
  repeat split; try done.
  unfold renderTable. simpl tbody. by rewrite bodyLabels_tableBody, Hrows.
Qed.

Lemma no_filter_bar_invariant_witness :
  reachable (H := sampleImports) (eq plainProps) plainProps
            (handle plainProps (initialState plainProps) ClickShowMore)
  ∧ bodyLabels (tbody (renderTable (H := sampleImports) plainProps
                         (handle plainProps (initialState plainProps) ClickShowMore)))
    = ["b"; "c"; "a"; "d"]
  ∧ bodyLabels (tbody (renderTable (H := sampleImports) plainProps
                         (initialState plainProps)))
    = ["b"; "c"].
Proof.
  assert (∀ p, plainProps = p → JS.truthy_flag (Props.showFilter p) = false) as Hflag
    by (by intros p <-).
  assert (reachable (H := sampleImports) (eq plainProps) plainProps
            (initialState plainProps)) as Hmount by (by apply reachable_mount).
  assert (reachable (H := sampleImports) (eq plainProps) plainProps
            (handle plainProps (initialState plainProps) ClickShowMore)) as Hreach.
  { apply (reachable_step _ _ (initialState plainProps) ClickShowMore); [exact Hmount |].
    exact (step_handle (H := sampleImports) plainProps (initialState plainProps)
             ClickShowMore eq_refl). }
  split; [exact Hreach |]. split.
  - destruct (no_filter_bar_invariant (H := sampleImports) _ _ _ Hflag Hreach)
      as (_ & _ & _ & ->).
    reflexivity.
  - destruct (no_filter_bar_invariant (H := sampleImports) _ _ _ Hflag Hmount)
      as (_ & _ & _ & ->).
    reflexivity.
Defined.

(** X14. A component that has only ever returned the caller's [emptyState]
    is still in a mount state: over a life in which all props have a
    truthy [emptyState] and no merged row, re-renders included, every
    render is the [emptyState] of the current props, no action is offered,
    and the state is the initial state of props the component has had. *)
Theorem empty_state_inert `{MetadataImports} (allowed : Props.t → Prop)
    (props : Props.t) (state : State.t) :
  (∀ p, allowed p → truthy_node (Props.emptyState p) = true ∧ allRowsOf p = []) →
  reachable allowed props state →
  render props state = ReturnNode (Props.emptyState props)
  ∧ (∀ a, offered (render props state) a = false)
  ∧ ∃ p, allowed p ∧ state = initialState p.
Proof.
  intros Hempty Hreach.
  assert (∀ p s, allowed p → render p s = ReturnNode (Props.emptyState p)) as Hnode.
  { intros p s [Ht Hr]%Hempty. by apply render_short_circuit. }
  pose proof (reachable_allowed _ _ _ Hreach) as Hp.
  split; [by apply Hnode |]. split.
  - intros a. rewrite Hnode by done. by destruct a.
  - clear Hp. induction Hreach as [props Hp|props state a state' Hreach _ Hstep|
                                   props props' state _ IH _].
    + by exists props.
    + destruct Hstep as [state a Hoff].
      rewrite Hnode in Hoff by (by eapply reachable_allowed).
      by destruct a.
    + exact IH.
Qed.

Lemma empty_state_inert_witness :
  render (H := sampleImports) (absentProps emptyStateNode)
         (initialState (absentProps emptyStateNode))
  = ReturnNode emptyStateNode
  ∧ offered (render (H := sampleImports) (absentProps emptyStateNode)
                    (initialState (absentProps emptyStateNode)))
            (ClickView ViewPlots) = false.
Proof.
  assert (reachable (H := sampleImports) (eq (absentProps emptyStateNode))
            (absentProps emptyStateNode) (initialState (absentProps emptyStateNode)))
    as Hreach by (by apply reachable_mount).
  assert (∀ p, absentProps emptyStateNode = p
               → truthy_node (Props.emptyState p) = true ∧ allRowsOf p = []) as Hempty
    by (by intros p <-).
  destruct (empty_state_inert (H := sampleImports) _ _ _ Hempty Hreach)
    as (Hnode & Hnone & _).
  split; [exact Hnode | apply Hnone].
Defined.

(** * The description cell *)

(** X13. "Observed in run" is only ever shown for an observation: when the
    description cell of a row of the table body names a run, then
    [showDescriptions] is set, the run identifier is not empty, and it is
    the [runId] of one of the observations handed to the component, an
    entry of which supplies the label and the description of the row. *)
Theorem observed_in_run_source `{MetadataImports} (props : Props.t) (state : State.t)
    (cells : EntryCells) (run : string) (d : option string) :
  EntryRow cells ∈ tbody (renderTable props state) →
  descriptionCell cells = Some (Some run, d) →
  JS.truthy_flag (Props.showDescriptions props) = true
  ∧ run ≠ ""
  ∧ ∃ o e, o ∈ default [] (Props.observations props)
           ∧ TableEvent.runId o = Some run
           ∧ e ∈ TableEvent.metadataEntries o
           ∧ keyCell cells = label e
           ∧ d = description e.
Proof.
  intros Hin Hcell.
  apply elem_of_tableBody in Hin as (row & Hrow & ->).
  unfold entryCells in Hcell. simpl in Hcell.
  destruct (JS.truthy_flag (Props.showDescriptions props)); [| discriminate].
  injection Hcell as Hrun Hd.
  split; [done |].
  assert (runId row = RunIdString run ∧ run ≠ "") as [Hid Hne].
  { destruct (runId row) as [| |s]; try discriminate. simpl in Hrun.
    destruct s; [discriminate |]. injection Hrun as <-. done. }
  split; [done |].
  assert (row ∈ concatenatedRows (Props.event props) (Props.observations props)
                  (Props.definitionMetadata props) (Props.definitionLoadTimestamp props))
    as Hsrc.
  { eapply elem_of_sublist; [exact Hrow |].
    transitivity (allRowsOf props); [apply displayed_sublist_allRows |].
    unfold allRowsOf. rewrite allRows_unfold. apply baseUniq_sublist. }
  unfold concatenatedRows in Hsrc. rewrite !elem_of_app in Hsrc.
  destruct Hsrc as [Ho | [[_ He]%eventRows_icon | [_ Hd']%definitionRows_icon]];
    [| congruence | congruence].
  apply observationRows_source in Ho as (_ & o & Hobs & Hentry & Hrid & _).
  exists o, (entry row). repeat split; try done.
  rewrite Hid in Hrid. by destruct (TableEvent.runId o); [injection Hrid as -> |].
Qed.

Lemma observed_in_run_source_witness :
  EntryRow (entryCells plainProps (scenarioObservedRow "b"))
    ∈ tbody (renderTable (H := sampleImports) plainProps (initialState plainProps))
  ∧ descriptionCell (entryCells plainProps (scenarioObservedRow "b"))
    = Some (Some "run-o", None)
  ∧ ∃ o e, o ∈ default [] (Props.observations plainProps)
           ∧ TableEvent.runId o = Some "run-o"
           ∧ e ∈ TableEvent.metadataEntries o
           ∧ keyCell (entryCells plainProps (scenarioObservedRow "b")) = label e
           ∧ None = description e.
Proof.
  assert (EntryRow (entryCells plainProps (scenarioObservedRow "b"))
            ∈ tbody (renderTable (H := sampleImports) plainProps
                       (initialState plainProps))) as Hin
    by (vm_compute; apply list_elem_of_here).
  assert (descriptionCell (entryCells plainProps (scenarioObservedRow "b"))
          = Some (Some "run-o", None)) as Hcell by reflexivity.
  split; [exact Hin |]. split; [exact Hcell |].
  exact (proj2 (proj2 (observed_in_run_source (H := sampleImports) plainProps
                         (initialState plainProps) _ "run-o" None Hin Hcell))).
Defined.

(** * What the table shows of the merge *)

Section winners.
Context {A K : Type} `{EqDecision K} (f : A → K).

(** In a list of distinct keys each element is the first of its key. *)
Lemma find_NoDup (p : A → bool) (l : list A) (x : A) :
  (∀ y, p y = true ↔ f y = f x) →
  NoDup (map f l) → x ∈ l → List.find p l = Some x.
Proof.
  intros Hp. induction l as [|y l IH]; simpl; [by intros _ ?%elem_of_nil |].
  rewrite NoDup_cons, elem_of_cons. intros [Hy Hnd] [-> | Hx].
  - by rewrite (proj2 (Hp y) eq_refl).
  - destruct (p y) eqn:Hpy; [| by apply IH].
    apply Hp in Hpy. exfalso. apply Hy. rewrite Hpy.
    apply list_elem_of_fmap. by exists x.
Qed.

End winners.

(** X15. Every row of the table is the winner of its label: the row is the
    first row bearing its label in the concatenation of the observation,
    event and definition rows. A lower-priority entry of that label is
    never shown, not even when the filter hides the winner. *)
Theorem shown_rows_are_winners `{MetadataImports} (props : Props.t) (state : State.t)
    (cells : EntryCells) :
  EntryRow cells ∈ tbody (renderTable props state) →
  ∃ row,
    firstWithLabel (keyCell cells)
      (concatenatedRows (Props.event props) (Props.observations props)
         (Props.definitionMetadata props) (Props.definitionLoadTimestamp props))
    = Some row
    ∧ cells = entryCells props row
    ∧ row ∈ filteredRowsOf props state.
Proof.
  intros (row & Hrow & ->)%elem_of_tableBody.
  exists row. split; [| split; [done |]].
  - rewrite <- firstWithLabel_allRows. simpl keyCell.
    apply (find_NoDup rowLabel).
    + intros y. apply String.eqb_eq.
    + apply (allRowsOf_NoDup props).
    + eapply elem_of_sublist; [exact Hrow |]. apply displayed_sublist_allRows.
  - eapply elem_of_sublist; [exact Hrow |]. apply displayedRows_sublist.
Qed.

Lemma shown_rows_are_winners_witness :
  ∃ row,
    firstWithLabel "b"
      (concatenatedRows scenarioEvent scenarioObservations scenarioDefinition None)
    = Some row
    ∧ entryCells plainProps (scenarioObservedRow "b") = entryCells plainProps row
    ∧ row ∈ filteredRowsOf (H := sampleImports) plainProps (initialState plainProps).
Proof.
  apply (shown_rows_are_winners (H := sampleImports) plainProps (initialState plainProps)
           (entryCells plainProps (scenarioObservedRow "b"))).
  vm_compute. apply list_elem_of_here.
Defined.

(** X16. The columns of the body line up with those of the header: every
    entry row of the table body has as many cells as [tableHeader] has
    columns, a timestamp cell exactly when [showTimestamps] is set and a
    description cell exactly when [showDescriptions] is. *)
Theorem table_columns_agree `{MetadataImports} (props : Props.t) (state : State.t)
    (cells : EntryCells) :
  EntryRow cells ∈ tbody (renderTable props state) →
  cellCount cells = length (tableHeader props)
  ∧ (is_Some (timestampCell cells) ↔ JS.truthy_flag (Props.showTimestamps props) = true)
  ∧ (is_Some (descriptionCell cells)
     ↔ JS.truthy_flag (Props.showDescriptions props) = true).
Proof.
  intros (row & _ & ->)%elem_of_tableBody.
  unfold cellCount, tableHeader, entryCells. simpl.
  destruct (JS.truthy_flag (Props.showTimestamps props)),
    (JS.truthy_flag (Props.showDescriptions props)); simpl;
    rewrite <- ?not_eq_None_Some; repeat split; try done; intros; exfalso; auto.
Qed.

Lemma table_columns_agree_witness :
  cellCount (entryCells plainProps (scenarioObservedRow "b"))
  = length (tableHeader plainProps)
  ∧ cellCount (entryCells plainProps (scenarioObservedRow "b")) = 3%nat.
Proof.
  split; [| reflexivity].
  apply (table_columns_agree (H := sampleImports) plainProps (initialState plainProps)).
  vm_compute. apply list_elem_of_here.
Defined.

(** * The merge, read off the inputs *)

Section keepFirst_facts.
Context {A : Type} (key : A → string).

Lemma keepFirst_prefix (pre rest : list A) (seen : list string) (x : A) :
  (∀ k, k ∈ seen ↔ k ∈ map key pre) →
  forallb (fun y => negb (String.eqb (key y) (key x)))
          (take (length pre) (pre ++ x :: rest))
  = negb (bool_decide (key x ∈ seen)).
Proof.
  intros Hseen. rewrite take_app_length.
  case_bool_decide as Hx; simpl.
  - apply Hseen, list_elem_of_fmap in Hx as (y & Hy & Hin).
    apply not_true_iff_false. rewrite forallb_forall.
    intros Hall. specialize (Hall y (proj1 (list_elem_of_In _ _) Hin)).
    apply negb_true_iff, String.eqb_neq in Hall. congruence.
  - apply forallb_forall. intros y Hin%list_elem_of_In.
    apply negb_true_iff, String.eqb_neq. intros Heq.
    apply Hx, Hseen, list_elem_of_fmap. by exists y.
Qed.

Lemma baseUniq_keepFirst_from (rest pre : list A) (seen : list string) :
  (∀ k, k ∈ seen ↔ k ∈ map key pre) →
  JS.baseUniq key seen [] rest
  = map snd
        (List.filter
           (fun ix => forallb (fun y => negb (String.eqb (key y) (key (snd ix))))
                              (take (fst ix) (pre ++ rest)))
           (zip (seq (length pre) (length rest)) rest)).
Proof.
  revert pre seen. induction rest as [|x rest IH]; intros pre seen Hseen; [done |].
  rewrite baseUniq_cons. simpl.
  rewrite (keepFirst_prefix pre rest seen x Hseen).
  assert (pre ++ x :: rest = (pre ++ [x]) ++ rest) as Hmid by by rewrite <- app_assoc.
  assert (S (length pre) = length (pre ++ [x])) as Hlen
    by (rewrite length_app; simpl; lia).
  rewrite Hmid, Hlen.
  case_bool_decide as Hx; simpl.
  - apply IH. intros k. rewrite map_app, elem_of_app, Hseen. simpl.
    rewrite list_elem_of_singleton. split; [tauto |].
    intros [?| ->]; [done |]. by apply Hseen.
  - f_equal. apply IH. intros k. rewrite map_app, !elem_of_app, Hseen. done.
Qed.

(** [uniqBy] keeps, of the elements of one key, the first. *)
Lemma baseUniq_keepFirst (l : list A) : JS.baseUniq key [] [] l = keepFirstBy key l.
Proof. apply (baseUniq_keepFirst_from l []). done. Qed.

(** A pass by a key read through [g] is a pass over the images by [g]. *)
Lemma baseUniq_map {B : Type} (g : B → A) (f : B → string) (seen : list string)
    (l : list B) :
  (∀ x, f x = key (g x)) →
  map g (JS.baseUniq f seen [] l) = JS.baseUniq key seen [] (map g l).
Proof.
  intros Hf. revert seen. induction l as [|x l IH]; intros seen; [done |].
  change (map g (x :: l)) with (g x :: map g l).
  rewrite !baseUniq_cons, <- Hf.
  case_bool_decide; simpl; [apply IH | f_equal; apply IH].
Qed.

End keepFirst_facts.

Section winner_facts.

Lemma firstWithLabel_observations l (os : list TableEvent.t) :
  firstWithLabel l (observationRows (Some os))
  = (fun oe => {| icon := observation;
                  timestamp := TableEvent.timestamp (fst oe);
                  runId := optionalRunId (TableEvent.runId (fst oe));
                  entry := snd oe |})
    <$> firstObservedEntry l os.
Proof.
  induction os as [|o os IH]; [done |].
  change (o :: os) with ([o] ++ os).
  rewrite observationRows_app, firstWithLabel_app, firstWithLabel_one_observation, IH.
  simpl. by destruct (firstEntryWithLabel l (TableEvent.metadataEntries o)).
Qed.

Lemma firstWithLabel_eventRows l (ev : TableEvent.t) :
  firstWithLabel l (eventRows (Some ev))
  = (fun e => {| icon := materialization;
                 timestamp := TableEvent.timestamp ev;
                 runId := RunIdNull;
                 entry := e |})
    <$> firstEntryWithLabel l (TableEvent.metadataEntries ev).
Proof. unfold firstWithLabel, eventRows. by rewrite find_map_first. Qed.

Lemma firstWithLabel_definitionRows l defs ts :
  firstWithLabel l (definitionRows defs ts)
  = (fun e => {| icon := asset;
                 timestamp := TimestampNumber <$> ts;
                 runId := RunIdNull;
                 entry := e |})
    <$> firstEntryWithLabel l (default [] defs).
Proof. unfold firstWithLabel, definitionRows. by rewrite find_map_first. Qed.

Lemma firstWithLabel_winner event observations defs ts l :
  firstWithLabel l (concatenatedRows event observations defs ts)
  = winnerOfLabel event observations defs ts l.
Proof.
  unfold concatenatedRows, winnerOfLabel.
  rewrite !firstWithLabel_app, firstWithLabel_definitionRows.
  assert (observationRows observations = observationRows (Some (default [] observations)))
    as -> by by destruct observations.
  rewrite firstWithLabel_observations.
  destruct event as [ev|].
  - rewrite firstWithLabel_eventRows.
    destruct (firstObservedEntry l (default [] observations)) as [[o e]|]; [done |].
    destruct (firstEntryWithLabel l (TableEvent.metadataEntries ev)); [done |].
    by destruct (firstEntryWithLabel l (default [] defs)).
  - change (firstWithLabel l (eventRows None)) with (@None Row).
    destruct (firstObservedEntry l (default [] observations)) as [[o e]|]; [done |].
    by destruct (firstEntryWithLabel l (default [] defs)).
Qed.

End winner_facts.

(** C1. For every event, observations and definition metadata, the entries
    of [allRows] are the entries of the observations, then of the event,
    then of the definition metadata, de-duplicated by label with the first
    occurrence kept, and [allRows] itself is that de-duplication of the
    rows tagged from them; no label occurs twice in it; and for every
    label the row that bears it in [allRows] is the row of the first entry
    with that label of the first observation that lists it, tagged with
    that observation's timestamp and run identifier; else, when no
    observation lists it, the row of the first such entry of the event;
    else that of the definition metadata: an observation wins over the
    event, the event over the definition. *)
Theorem allRows_dedup_precedence event observations definitionMetadata ts :
  map entry (allRows event observations definitionMetadata ts)
  = keepFirstBy label (inputEntries event observations definitionMetadata)
  ∧ allRows event observations definitionMetadata ts
    = dedupByLabelKeepFirst (concatenatedRows event observations definitionMetadata ts)
  ∧ NoDup (map (fun r => label (entry r))
               (allRows event observations definitionMetadata ts))
  ∧ ∀ l : string,
      List.find (fun r => String.eqb (label (entry r)) l)
                (allRows event observations definitionMetadata ts)
      = winnerOfLabel event observations definitionMetadata ts l.
Proof.
  split; [| split; [| split]].
  - rewrite allRows_unfold, (baseUniq_map label entry rowLabel) by done.
    by rewrite concatenatedRows_entries, baseUniq_keepFirst.
  - rewrite allRows_unfold. apply (baseUniq_dedup _ []). done.
  - rewrite allRows_unfold. apply (baseUniq_NoDup rowLabel).
  - intros l.
    change (firstWithLabel l (allRows event observations definitionMetadata ts)
            = winnerOfLabel event observations definitionMetadata ts l).
    by rewrite firstWithLabel_allRows, firstWithLabel_winner.
Qed.

(** In the merge scenario the label a, which the event and the definition
    share, is the event's; b, which the observation and the event share,
    is the observation's; d is the definition's. *)
Example allRows_scenario_winners :
  map (fun l => icon <$> List.find (fun r => String.eqb (label (entry r)) l)
                           (allRows scenarioEvent scenarioObservations
                                    scenarioDefinition None))
      ["a"; "b"; "c"; "d"; "e"]
  = [Some materialization; Some observation; Some observation; Some asset; None].
Proof. reflexivity. Qed.
